(** * Verification of [mlagents/trainers/trainer_metrics.py]

    A shallow embedding of the flat metrics recorder ([TrainerMetrics]) and of
    the hierarchical timer ([TimerNode], [TimerStack], [hierarchical_timer]),
    followed by the properties of the specification that are settled on it.

    Modelling conventions.
    - Python [float] values (timestamps, durations) are exact rationals [Q];
      rounding of binary floating point is not modelled.  The sentinel
      [-1.0] of [TimerNode._start_time] and the truthiness tests on
      timestamps are kept exactly as the code has them.
    - Python [int] is [Z], [str] is [string], a [dict] is an association list
      in insertion order with unique keys.
    - The readings of [time()] and [perf_counter()] are inputs: every
      function that consults a clock takes the reading as an argument.
    - A method is a computation [Py S A] over the object it mutates: it
      returns a result or raises, and the mutations done before a raise
      persist, as in Python.
    - The nodes of a timer tree are owned by their parent; the references
      held in [TimerStack.stack] and handed out by [push] are access paths
      from the root, so a mutation through a reference is seen in the tree. *)

From Stdlib Require Import List String Ascii Bool ZArith QArith Qabs Lia.
Import ListNotations.

Set Warnings "-register-all".
Open Scope string_scope.
Open Scope list_scope.

(** ** Python results and exceptions *)

Inductive exn : Type :=
| AssertionError (msg : string)
| IndexError
| KeyError (key : string)
| TypeError
| OSError (filename : string) (* [open] could not open the file for writing:
                                 [FileNotFoundError], [PermissionError], ... *)
| BodyError (tag : string)   (* an exception raised by user code *)
| DanglingRef.               (* a reference naming no node; not a Python
                                exception: never raised, see [no_dangling_ref] *)

Inductive result (A : Type) : Type :=
| Ok (a : A)
| Raise (e : exn).
Arguments Ok {A} a.
Arguments Raise {A} e.

(** A computation over a mutable object of type [S]. *)
Definition Py (S A : Type) : Type := S -> result A * S.

Definition ret {S A} (a : A) : Py S A := fun s => (Ok a, s).
Definition raise {S A} (e : exn) : Py S A := fun s => (Raise e, s).
Definition bind {S A B} (m : Py S A) (k : A -> Py S B) : Py S B :=
  fun s => match m s with
           | (Ok a, s') => k a s'
           | (Raise e, s') => (Raise e, s')
           end.
Definition get {S} : Py S S := fun s => (Ok s, s).
Definition put {S} (s : S) : Py S unit := fun _ => (Ok tt, s).
Definition modify {S} (f : S -> S) : Py S unit := fun s => (Ok tt, f s).
Definition assert {S} (b : bool) (msg : string) : Py S unit :=
  if b then ret tt else raise (AssertionError msg).
Definition lift {S A} (r : result A) : Py S A := fun s => (r, s).

Declare Scope py_scope.
Delimit Scope py_scope with py.
Notation "x <- m ;; k" := (bind m (fun x => k))
  (at level 100, m at next level, right associativity) : py_scope.
Notation "m ;;; k" := (bind m (fun _ => k))
  (at level 100, right associativity) : py_scope.
Open Scope py_scope.

(** ** Python values that end up in rows and in the timing tree *)

Inductive pyval : Type :=
| PyNone
| PyInt (z : Z)
| PyFloat (q : Q)
| PyStr (s : string)
| PyList (l : list pyval)
| PyDict (d : list (string * pyval)).

Definition pydict : Type := list (string * pyval).

(** ** Ordered dictionaries with string keys *)

Module Dict.
Section Dict.
Context {V : Type}.

(** [d.get(k)] *)
Fixpoint get (k : string) (d : list (string * V)) : option V :=
  match d with
  | [] => None
  | (k', v) :: d' => if String.eqb k k' then Some v else get k d'
  end.

(** [d[k] = v]: an existing key keeps its position, a new key goes last. *)
Fixpoint set (k : string) (v : V) (d : list (string * V)) : list (string * V) :=
  match d with
  | [] => [(k, v)]
  | (k', v') :: d' =>
      if String.eqb k k' then (k', v) :: d' else (k', v') :: set k v d'
  end.

(** [d[k]] *)
Definition getitem (k : string) (d : list (string * V)) : result V :=
  match get k d with
  | Some v => Ok v
  | None => Raise (KeyError k)
  end.

(** [{**d, **e}] *)
Definition update (d e : list (string * V)) : list (string * V) :=
  fold_left (fun acc kv => set (fst kv) (snd kv) acc) e d.

Definition keys (d : list (string * V)) : list string := map fst d.
End Dict.
End Dict.

(** ** Numbers *)

Definition Qlt_bool (a b : Q) : bool := negb (Qle_bool b a).

(** [max(a, b)] of two floats: the first argument unless the second is
    strictly greater. *)
Definition py_max (a b : Q) : Q := if Qlt_bool a b then b else a.

(** Truthiness of an optional float: [None] and [0.0] are falsy. *)
Definition truthy (o : option Q) : bool :=
  match o with
  | None => false
  | Some q => negb (Qeq_bool q 0)
  end.

(** ** TimerNode *)

Inductive TimerNode : Type :=
  mkTimerNode {
      children : list (string * TimerNode);
      _start_time : Q;
      total : Q;
      count : Z
    }.

(** [TimerNode.__init__] *)
Definition TimerNode_init : TimerNode :=
  {| children := []; _start_time := -1; total := 0; count := 0 |}.

Definition _is_running (self : TimerNode) : bool :=
  negb (Qeq_bool (_start_time self) (-1)).

(** [TimerNode._start], with [now] the reading of [perf_counter()]. *)
Definition _start (now : Q) : Py TimerNode unit :=
  self <- get ;;
  assert (negb (_is_running self)) "calling start() on an already-running timer" ;;;
  put {| children := children self; _start_time := now;
         total := total self; count := count self |}.

(** [TimerNode._end], with [now] the reading of [perf_counter()]. *)
Definition _end (now : Q) : Py TimerNode unit :=
  self <- get ;;
  assert (_is_running self) "calling _end on a stopped timer" ;;;
  let elapsed := now - _start_time self in
  put {| children := children self; _start_time := -1;
         total := total self + elapsed; count := (count self + 1)%Z |}.

(** ** References into the timer tree

    A reference to a node is the list of child names leading to it from the
    root; the root itself is [[]]. *)

Definition ref : Type := list string.

Definition root_ref : ref := [].

Definition with_children (ch : list (string * TimerNode)) (n : TimerNode) : TimerNode :=
  {| children := ch; _start_time := _start_time n; total := total n; count := count n |}.

(** The node a reference denotes. *)
Fixpoint node_at (r : ref) (n : TimerNode) : option TimerNode :=
  match r with
  | [] => Some n
  | name :: r' =>
      match Dict.get name (children n) with
      | Some c => node_at r' c
      | None => None
      end
  end.

(** The tree after the node denoted by [r] has become [n']. *)
Fixpoint node_put (r : ref) (n' : TimerNode) (n : TimerNode) : TimerNode :=
  match r with
  | [] => n'
  | name :: r' =>
      match Dict.get name (children n) with
      | Some c => with_children (Dict.set name (node_put r' n' c) (children n)) n
      | None => n
      end
  end.

(** ** TimerStack *)

Record TimerStack : Type :=
  mkTimerStack {
      root : TimerNode;
      stack : list ref
    }.

(** [stack[-1]] *)
Fixpoint top {A} (l : list A) : option A :=
  match l with
  | [] => None
  | [a] => Some a
  | _ :: l' => top l'
  end.

(** Run a method of the node denoted by [r] on the tree of the stack. *)
Definition with_node {A} (r : ref) (m : Py TimerNode A) : Py TimerStack A :=
  fun ts =>
    match node_at r (root ts) with
    | None => (Raise DanglingRef, ts)
    | Some n =>
        let (res, n') := m n in
        (res, {| root := node_put r n' (root ts); stack := stack ts |})
    end.

(** [TimerStack.__init__], with [now] the reading of [perf_counter()]. *)
Definition TimerStack_init (now : Q) : TimerStack :=
  snd (with_node root_ref (_start now)
         {| root := TimerNode_init; stack := [root_ref] |}).

(** [TimerStack.push] *)
Definition push (name : string) : Py TimerStack ref :=
  self <- get ;;
  match top (stack self) with
  | None => raise IndexError
  | Some cur =>
      match node_at cur (root self) with
      | None => raise DanglingRef
      | Some current =>
          let next_timer := cur ++ [name] in
          match Dict.get name (children current) with
          | None =>
              put {| root :=
                       node_put cur
                         (with_children
                            (Dict.set name TimerNode_init (children current))
                            current)
                         (root self);
                     stack := stack self ++ [next_timer] |} ;;;
              ret next_timer
          | Some _ =>
              put {| root := root self; stack := stack self ++ [next_timer] |} ;;;
              ret next_timer
          end
      end
  end.

(** [TimerStack.pop] *)
Definition pop : Py TimerStack unit :=
  self <- get ;;
  match stack self with
  | [] => raise IndexError
  | _ :: _ => put {| root := root self; stack := removelast (stack self) |}
  end.

(** [child_total += child_res["total"]] *)
Definition add_total (child_total : Q) (child_res : pydict) : result Q :=
  match Dict.getitem "total" child_res with
  | Ok (PyFloat q) => Ok (child_total + q)
  | Ok (PyInt z) => Ok (child_total + inject_Z z)
  | Ok _ => Raise TypeError
  | Raise e => Raise e
  end.

(** The loop over [node.children.items()] of [get_timing_tree]; [rec] is the
    recursive call, [acc] the list [res["children"]] built so far. *)
Section ChildItems.
Variable rec : TimerNode -> result pydict.

Fixpoint child_items (l : list (string * TimerNode)) (acc : list pyval)
    (child_total : Q) : result (list pyval * Q) :=
  match l with
  | [] => Ok (acc, child_total)
  | (child_name, child_node) :: l' =>
      match rec child_node with
      | Raise e => Raise e
      | Ok sub =>
          let child_res := Dict.update [("name", PyStr child_name)] sub in
          match add_total child_total child_res with
          | Raise e => Raise e
          | Ok child_total' =>
              child_items l' (acc ++ [PyDict child_res]) child_total'
          end
      end
  end.
End ChildItems.

(** The recursion of [TimerStack.get_timing_tree] on a given node. *)
Fixpoint timing_tree (node : TimerNode) : result pydict :=
  match node with
  | mkTimerNode ch _ tot cnt =>
      let res := [("total", PyFloat tot); ("count", PyInt cnt)] in
      match
        match ch with
        | [] => Ok (res, 0)
        | _ :: _ =>
            match child_items timing_tree ch [] 0 with
            | Raise e => Raise e
            | Ok (recs, child_total) =>
                Ok (Dict.set "children" (PyList recs) res, child_total)
            end
        end
      with
      | Raise e => Raise e
      | Ok (res', child_total) =>
          Ok (Dict.set "self" (PyFloat (py_max 0 (tot - child_total))) res')
      end
  end.

(** [TimerStack.get_timing_tree]; [node = None] ends the root first, with
    [now] the reading of [perf_counter()] in that case. *)
Definition get_timing_tree (now : Q) (node : option ref) : Py TimerStack pydict :=
  node' <- match node with
           | None => with_node root_ref (_end now) ;;; ret root_ref
           | Some r => ret r
           end ;;
  self <- get ;;
  match node_at node' (root self) with
  | None => raise DanglingRef
  | Some n => lift (timing_tree n)
  end.

(** [with hierarchical_timer(name, timer_stack): body].  The helper is a
    generator turned into a context manager: the code before [yield] runs on
    entry, [body] runs at the [yield], and the code after the [yield] runs
    only if the generator is resumed normally.  An exception of [body] is
    thrown into the generator at the [yield], where nothing catches it. *)
Definition hierarchical_timer {A} (name : string) (t_start t_end : Q)
    (body : ref -> Py TimerStack A) : Py TimerStack A :=
  next_timer <- push name ;;
  with_node next_timer (_start t_start) ;;;
  a <- body next_timer ;;
  with_node next_timer (_end t_end) ;;;
  pop ;;;
  ret a.

(** [get_timer_tree] *)
Definition get_timer_tree (now : Q) : Py TimerStack pydict :=
  get_timing_tree now None.

(** ** Strings: [str.replace] and [format(c, ".3f")] *)

(** [s.replace(old, new)] for a non-empty [old]: occurrences are replaced
    from left to right without overlap; [skip] counts the characters of a
    replaced occurrence still to be dropped. *)
Fixpoint replace_from (old new : string) (skip : nat) (s : string) : string :=
  match s with
  | EmptyString => EmptyString
  | String c s' =>
      match skip with
      | S k => replace_from old new k s'
      | O =>
          if String.prefix old s
          then new ++ replace_from old new (String.length old - 1) s'
          else String c (replace_from old new 0 s')
      end
  end.

(** [s.replace("", new)]: [new] goes before every character and at the end. *)
Fixpoint intersperse (new : string) (s : string) : string :=
  match s with
  | EmptyString => new
  | String c s' => new ++ String c (intersperse new s')
  end.

Definition str_replace (old new s : string) : string :=
  match old with
  | EmptyString => intersperse new s
  | String _ _ => replace_from old new 0 s
  end.

Definition digit (z : Z) : ascii := ascii_of_nat (48 + Z.to_nat z).

(** Decimal digits of a non-negative integer, most significant first. *)
Fixpoint digits_fuel (fuel : nat) (z : Z) (acc : string) : string :=
  match fuel with
  | O => acc
  | S fuel' =>
      let acc' := String (digit (z mod 10)) acc in
      if (z <? 10)%Z then acc' else digits_fuel fuel' (z / 10) acc'
  end.

Definition str_nat (z : Z) : string := digits_fuel (S (Z.to_nat z)) z "".

(** [str(z)] *)
Definition str_int (z : Z) : string :=
  if (z <? 0)%Z then "-" ++ str_nat (- z) else str_nat z.

(** Nearest integer of a non-negative rational, ties to even. *)
Definition round_half_even (q : Q) : Z :=
  let n := Qnum q in
  let d := Zpos (Qden q) in
  let fl := (n / d)%Z in
  let r2 := (2 * (n mod d))%Z in
  if (r2 <? d)%Z then fl
  else if (d <? r2)%Z then (fl + 1)%Z
       else if Z.even fl then fl else (fl + 1)%Z.

(** [format(q, ".3f")] *)
Definition format_3f (q : Q) : string :=
  let m := round_half_even (Qabs q * 1000) in
  let frac := (m mod 1000)%Z in
  (if Qlt_bool q 0 then "-" else "")
    ++ str_nat (m / 1000)
    ++ "."
    ++ String (digit (frac / 100))
         (String (digit ((frac / 10) mod 10))
            (String (digit (frac mod 10)) "")).

(** ** TrainerMetrics *)

Definition FIELD_NAMES : list string :=
  [ "Brain name";
    "Time to update policy";
    "Time since start of training";
    "Time for last experience collection";
    "Number of experiences used for training";
    "Mean return" ].

Record TrainerMetrics : Type :=
  mkTrainerMetrics {
      path : string;
      brain_name : string;
      rows : list (list pyval);
      time_start_experience_collection : option Q;
      time_training_start : Q;
      last_buffer_length : option Z;
      last_mean_return : option Q;
      time_policy_update_start : option Q;
      delta_last_experience_collection : option Q;
      delta_policy_update : pyval     (* [None], the int [0] or a float *)
    }.

(** [TrainerMetrics.__init__], with [now] the reading of [time()]. *)
Definition TrainerMetrics_init (path brain_name : string) (now : Q) : TrainerMetrics :=
  {| path := path;
     brain_name := brain_name;
     rows := [];
     time_start_experience_collection := None;
     time_training_start := now;
     last_buffer_length := None;
     last_mean_return := None;
     time_policy_update_start := None;
     delta_last_experience_collection := None;
     delta_policy_update := PyNone |}.

Definition set_rows (v : list (list pyval)) (m : TrainerMetrics) : TrainerMetrics :=
  mkTrainerMetrics (path m) (brain_name m) v (time_start_experience_collection m)
    (time_training_start m) (last_buffer_length m) (last_mean_return m)
    (time_policy_update_start m) (delta_last_experience_collection m)
    (delta_policy_update m).

Definition set_time_start_experience_collection (v : option Q) (m : TrainerMetrics)
  : TrainerMetrics :=
  mkTrainerMetrics (path m) (brain_name m) (rows m) v
    (time_training_start m) (last_buffer_length m) (last_mean_return m)
    (time_policy_update_start m) (delta_last_experience_collection m)
    (delta_policy_update m).

Definition set_policy_update_inputs (n : Z) (r : Q) (t : Q) (m : TrainerMetrics)
  : TrainerMetrics :=
  mkTrainerMetrics (path m) (brain_name m) (rows m) (time_start_experience_collection m)
    (time_training_start m) (Some n) (Some r)
    (Some t) (delta_last_experience_collection m)
    (delta_policy_update m).

Definition set_delta_last_experience_collection (v : option Q) (m : TrainerMetrics)
  : TrainerMetrics :=
  mkTrainerMetrics (path m) (brain_name m) (rows m) (time_start_experience_collection m)
    (time_training_start m) (last_buffer_length m) (last_mean_return m)
    (time_policy_update_start m) v
    (delta_policy_update m).

Definition set_delta_policy_update (v : pyval) (m : TrainerMetrics) : TrainerMetrics :=
  mkTrainerMetrics (path m) (brain_name m) (rows m) (time_start_experience_collection m)
    (time_training_start m) (last_buffer_length m) (last_mean_return m)
    (time_policy_update_start m) (delta_last_experience_collection m)
    v.

(** [start_experience_collection_timer], with [now] the reading of [time()]. *)
Definition start_experience_collection_timer (now : Q) : Py TrainerMetrics unit :=
  self <- get ;;
  match time_start_experience_collection self with
  | None => modify (set_time_start_experience_collection (Some now))
  | Some _ => ret tt
  end.

(** [end_experience_collection_timer], with [now] the reading of [time()]. *)
Definition end_experience_collection_timer (now : Q) : Py TrainerMetrics unit :=
  self <- get ;;
  match time_start_experience_collection self with
  | Some start =>
      if truthy (Some start) then
        let curr_delta := now - start in
        match delta_last_experience_collection self with
        | None => modify (set_delta_last_experience_collection (Some curr_delta))
        | Some d => modify (set_delta_last_experience_collection (Some (d + curr_delta)))
        end
      else ret tt
  | None => ret tt
  end ;;;
  modify (set_time_start_experience_collection None).

(** [add_delta_step] *)
Definition add_delta_step (delta : Q) : Py TrainerMetrics unit :=
  self <- get ;;
  match delta_last_experience_collection self with
  | Some d =>
      if truthy (Some d)
      then modify (set_delta_last_experience_collection (Some (d + delta)))
      else modify (set_delta_last_experience_collection (Some delta))
  | None => modify (set_delta_last_experience_collection (Some delta))
  end.

(** [start_policy_update_timer], with [now] the reading of [time()]. *)
Definition start_policy_update_timer (number_experiences : Z) (mean_return : Q)
    (now : Q) : Py TrainerMetrics unit :=
  modify (set_policy_update_inputs number_experiences mean_return now).

(** [format(c, ".3f") if isinstance(c, float) else c] *)
Definition row_cell (c : pyval) : pyval :=
  match c with
  | PyFloat q => PyStr (format_3f q)
  | _ => c
  end.

Definition of_float (o : option Q) : pyval :=
  match o with Some q => PyFloat q | None => PyNone end.

Definition of_int (o : option Z) : pyval :=
  match o with Some z => PyInt z | None => PyNone end.

(** [_add_row] *)
Definition _add_row (delta_train_start : Q) : Py TrainerMetrics unit :=
  self <- get ;;
  let row :=
    [PyStr (brain_name self)]
      ++ map row_cell
           [ delta_policy_update self;
             PyFloat delta_train_start;
             of_float (delta_last_experience_collection self);
             of_int (last_buffer_length self);
             of_float (last_mean_return self) ] in
  modify (set_delta_last_experience_collection None) ;;;
  modify (fun m => set_rows (rows m ++ [row]) m).

(** A replacement field [{:0.3f}] of [str.format]: a number is rendered,
    [None] has no such format. *)
Definition field_3f (v : pyval) : result string :=
  match v with
  | PyFloat q => Ok (format_3f q)
  | PyInt z => Ok (format_3f (inject_Z z))
  | _ => Raise TypeError
  end.

(** A replacement field [{}] for the values that reach it here. *)
Definition field_str (v : pyval) : result string :=
  match v with
  | PyNone => Ok "None"
  | PyInt z => Ok (str_int z)
  | PyStr s => Ok s
  | _ => Raise TypeError
  end.

Definition nl : string := String (ascii_of_nat 10) "".
Definition tab : string := String (ascii_of_nat 9) "".

(** The argument of [LOGGER.debug] in [end_policy_update]: the message is
    built by [str.format] before the logger is called. *)
Definition policy_update_message (self : TrainerMetrics) (delta_train_start : Q)
  : result string :=
  match field_str (PyStr (brain_name self)) with Raise e => Raise e | Ok f0 =>
  match field_3f (delta_policy_update self) with Raise e => Raise e | Ok f1 =>
  match field_3f (PyFloat delta_train_start) with Raise e => Raise e | Ok f2 =>
  match field_3f (of_float (delta_last_experience_collection self)) with
  | Raise e => Raise e | Ok f3 =>
  match field_str (of_int (last_buffer_length self)) with Raise e => Raise e | Ok f4 =>
  match field_3f (of_float (last_mean_return self)) with Raise e => Raise e | Ok f5 =>
    Ok (" Policy Update Training Metrics for " ++ f0 ++ ": "
        ++ nl ++ tab ++ tab ++ "Time to update Policy: " ++ f1 ++ " s " ++ nl
        ++ tab ++ tab ++ "Time elapsed since training: " ++ f2 ++ " s " ++ nl
        ++ tab ++ tab ++ "Time for experience collection: " ++ f3 ++ " s " ++ nl
        ++ tab ++ tab ++ "Buffer Length: " ++ f4 ++ " " ++ nl
        ++ tab ++ tab ++ "Returns : " ++ f5 ++ nl)%string
  end end end end end end.

(** [end_policy_update]; [t_update] is the reading of [time()] taken when a
    start is on record, [t_now] the reading taken for the time since the
    start of training. *)
Definition end_policy_update (t_update t_now : Q) : Py TrainerMetrics unit :=
  self <- get ;;
  match time_policy_update_start self with
  | Some start =>
      if truthy (Some start)
      then modify (set_delta_policy_update (PyFloat (t_update - start)))
      else modify (set_delta_policy_update (PyInt 0))
  | None => modify (set_delta_policy_update (PyInt 0))
  end ;;;
  self <- get ;;
  let delta_train_start := t_now - time_training_start self in
  _ <- lift (policy_update_message self delta_train_start) ;;
  _add_row delta_train_start.

(** ** Files written by [write_training_metrics] *)

Inductive file : Type :=
| Opened                                  (* opened with mode "w", nothing written *)
| CsvFile (lines : list (list pyval))
| JsonFile (doc : pydict).

(** The world [write_training_metrics] acts on: the files, the paths the
    file system lets [open(path, "w")] open, and the process-wide timer
    stack.  Which paths can be opened is given by the environment ([""], a
    missing directory or a read-only location cannot); writing to a file
    once it is open is taken to succeed. *)
Record World : Type :=
  mkWorld {
      files : list (string * file);
      openable : string -> bool;
      _global_timer_stack : TimerStack
    }.

(** [open(name, "w")]: raises when the path cannot be opened, otherwise the
    file exists and is empty. *)
Definition open_for_writing (name : string) : Py World unit :=
  self <- get ;;
  if openable self name
  then put {| files := Dict.set name Opened (files self);
              openable := openable self;
              _global_timer_stack := _global_timer_stack self |}
  else raise (OSError name).

(** The content written to an open file by the time it is closed. *)
Definition write_file (name : string) (f : file) : Py World unit :=
  modify (fun w => {| files := Dict.set name f (files w);
                      openable := openable w;
                      _global_timer_stack := _global_timer_stack w |}).

Definition on_global_timer_stack {A} (m : Py TimerStack A) : Py World A :=
  fun w =>
    let (res, ts) := m (_global_timer_stack w) in
    (res, {| files := files w; openable := openable w; _global_timer_stack := ts |}).

(** The path of the timing-tree file of [write_training_metrics]. *)
Definition json_path (self : TrainerMetrics) : string :=
  str_replace "csv" "hierarchy.json" (path self).

(** [write_training_metrics], with [now] the reading of [perf_counter()]
    taken by [get_timer_tree]. *)
Definition write_training_metrics (now : Q) (self : TrainerMetrics) : Py World unit :=
  open_for_writing (path self) ;;;
  write_file (path self) (CsvFile (map PyStr FIELD_NAMES :: rows self)) ;;;
  open_for_writing (json_path self) ;;;
  tree <- on_global_timer_stack (get_timer_tree now) ;;
  write_file (json_path self) (JsonFile tree).

(** ** Vocabulary of the statements *)

Definition started (now : Q) (self : TimerNode) : TimerNode :=
  {| children := children self; _start_time := now;
     total := total self; count := count self |}.

Definition ended (now : Q) (self : TimerNode) : TimerNode :=
  {| children := children self; _start_time := -1;
     total := total self + (now - _start_time self);
     count := (count self + 1)%Z |}.

(** The value under ["total"] of a child record of the timing tree. *)
Definition record_total (r : pyval) : Q :=
  match r with
  | PyDict d => match Dict.get "total" d with Some (PyFloat q) => q | _ => 0 end
  | _ => 0
  end.

(** The value under ["name"] of a child record of the timing tree. *)
Definition record_name (r : pyval) : string :=
  match r with
  | PyDict d => match Dict.get "name" d with Some (PyStr n) => n | _ => "" end
  | _ => ""
  end.

(** Sum of the ["total"] values of a list of child records, accumulated from
    [0.0] in list order as the loop does. *)
Definition sum_totals (recs : list pyval) : Q :=
  fold_left (fun acc r => acc + record_total r) recs 0.


(** What [timing_tree] returns for [node]. *)
Definition tree_record (node : TimerNode) (res : pydict) : Prop :=
  match children node with
  | [] =>
      res = [("total", PyFloat (total node)); ("count", PyInt (count node));
             ("self", PyFloat (py_max 0 (total node - 0)))]
  | _ :: _ =>
      exists recs,
        res = [("total", PyFloat (total node)); ("count", PyInt (count node));
               ("children", PyList recs);
               ("self", PyFloat (py_max 0 (total node - sum_totals recs)))]
        /\ map record_name recs = map fst (children node)
        /\ map record_total recs = map (fun kv => total (snd kv)) (children node)
  end.

(** The calls the training loop makes on a recorder, each with the clock
    readings it takes. *)
Inductive metrics_call : Type :=
| StartExperienceCollection (now : Q)
| EndExperienceCollection (now : Q)
| AddDeltaStep (delta : Q)
| StartPolicyUpdate (number_experiences : Z) (mean_return : Q) (now : Q)
| EndPolicyUpdate (t_update t_now : Q).

Definition call (c : metrics_call) : Py TrainerMetrics unit :=
  match c with
  | StartExperienceCollection now => start_experience_collection_timer now
  | EndExperienceCollection now => end_experience_collection_timer now
  | AddDeltaStep delta => add_delta_step delta
  | StartPolicyUpdate n r now => start_policy_update_timer n r now
  | EndPolicyUpdate t_update t_now => end_policy_update t_update t_now
  end.

(** The recorder after a series of calls.  A call that raises leaves the
    recorder as it was at the raise; the series goes on with the next call. *)
Definition after_calls (cs : list metrics_call) (m : TrainerMetrics) : TrainerMetrics :=
  fold_left (fun m c => snd (call c m)) cs m.

Definition is_start_policy_update (c : metrics_call) : bool :=
  match c with
  | StartPolicyUpdate _ _ _ => true
  | _ => false
  end.

(** No call of the series is [start_policy_update_timer]. *)
Definition never_started (cs : list metrics_call) : bool :=
  forallb (fun c => negb (is_start_policy_update c)) cs.

(** The calls made on a timer stack; [Start] and [End] are [_start] and
    [_end] on the node at the top of the stack, each with its reading of
    [perf_counter()]. *)
Inductive timer_op : Type :=
| Push (name : string)
| Start (now : Q)
| End (now : Q)
| Pop.

Definition on_top {A} (m : Py TimerNode A) : Py TimerStack A :=
  self <- get ;;
  match top (stack self) with
  | None => raise IndexError
  | Some r => with_node r m
  end.

Definition step (o : timer_op) : Py TimerStack unit :=
  match o with
  | Push name => push name ;;; ret tt
  | Start now => on_top (_start now)
  | End now => on_top (_end now)
  | Pop => pop
  end.

(** The calls in order, up to the first one that raises. *)
Fixpoint run_ops (ops : list timer_op) : Py TimerStack unit :=
  match ops with
  | [] => ret tt
  | o :: ops' => step o ;;; run_ops ops'
  end.

(** The stack objects seen after each call that returned. *)
Fixpoint states_of (ops : list timer_op) (ts : TimerStack) : list TimerStack :=
  match ops with
  | [] => []
  | o :: ops' =>
      match step o ts with
      | (Ok _, ts') => ts' :: states_of ops' ts'
      | (Raise _, _) => []
      end
  end.

(** Properly nested regions: a region [name] entered at reading [t_start]
    and left at [t_end], the regions [inner] entered inside it, and the
    regions [rest] entered after it. *)
Inductive regions : Type :=
| Done
| Region (name : string) (t_start t_end : Q) (inner rest : regions).

(** The sequence of calls of properly nested regions: push then start on
    entry, end then pop on exit. *)
Fixpoint ops_of (rs : regions) : list timer_op :=
  match rs with
  | Done => []
  | Region name t_start t_end inner rest =>
      [Push name; Start t_start] ++ ops_of inner ++ [End t_end; Pop] ++ ops_of rest
  end.

(** No reading taken by a [Start] is the sentinel [-1.0]. *)
Fixpoint start_readings_ok (rs : regions) : bool :=
  match rs with
  | Done => true
  | Region _ t_start _ inner rest =>
      negb (Qeq_bool t_start (-1)) && start_readings_ok inner && start_readings_ok rest
  end.

(** Neither the node nor any node below it is running. *)
Fixpoint idle_tree (n : TimerNode) : bool :=
  match n with
  | mkTimerNode ch st _ _ =>
      Qeq_bool st (-1) && forallb (fun kv => idle_tree (snd kv)) ch
  end.

(** No node below [n] is running. *)
Definition kids_idle (n : TimerNode) : bool :=
  forallb (fun kv => idle_tree (snd kv)) (children n).

(** [run_ops ops] returns normally from [ts] to [ts'], every call of [ops]
    is executed, and the stack keeps [base] as a prefix after each call. *)
Definition runs_within (base : list ref) (ops : list timer_op)
    (ts ts' : TimerStack) : Prop :=
  run_ops ops ts = (Ok tt, ts')
  /\ List.length (states_of ops ts) = List.length ops
  /\ Forall (fun s => exists ext, stack s = base ++ ext) (states_of ops ts).

(** Properly nested sequences of calls, given directly on the sequence;
    they are the sequences [ops_of rs], see [nested_ops_of]. *)
Inductive nested : list timer_op -> Prop :=
| nested_nil : nested []
| nested_region name t_start t_end inner rest :
    nested inner -> nested rest ->
    nested ([Push name; Start t_start] ++ inner ++ [End t_end; Pop] ++ rest).

(** A reference denotes a node of the tree. *)
Definition valid (r : ref) (rt : TimerNode) : bool :=
  match node_at r rt with Some _ => true | None => false end.

(** Every reference on the stack denotes a node of the tree. *)
Definition wf (ts : TimerStack) : bool :=
  forallb (fun r => valid r (root ts)) (stack ts).

(** A node without children that completed once with total [t]. *)
Definition leaf (t : Q) : TimerNode :=
  {| children := []; _start_time := -1; total := t; count := 1 |}.

(** The experience-collection time accumulated so far, [0] when none. *)
Definition accumulated (m : TrainerMetrics) : Q :=
  match delta_last_experience_collection m with
  | Some d => d
  | None => 0
  end.

(** The duration [end_policy_update] stores in [delta_policy_update]. *)
Definition policy_update_duration (t_update : Q) (m : TrainerMetrics) : pyval :=
  match time_policy_update_start m with
  | Some start => if truthy (Some start) then PyFloat (t_update - start) else PyInt 0
  | None => PyInt 0
  end.

(** The row [end_policy_update] appends when it gets as far as [_add_row]. *)
Definition policy_update_row (t_update t_now : Q) (m : TrainerMetrics) : list pyval :=
  [PyStr (brain_name m)]
    ++ map row_cell
         [ policy_update_duration t_update m;
           PyFloat (t_now - time_training_start m);
           of_float (delta_last_experience_collection m);
           of_int (last_buffer_length m);
           of_float (last_mean_return m) ].

(** Both values the log message of [end_policy_update] formats with
    [{:0.3f}] and that can be [None] are set. *)
Definition can_log (m : TrainerMetrics) : bool :=
  match delta_last_experience_collection m, last_mean_return m with
  | Some _, Some _ => true
  | _, _ => false
  end.

Definition is_float (v : pyval) : bool :=
  match v with PyFloat _ => true | _ => false end.

(** A row of the recorder of brain [b]: as many cells as [FIELD_NAMES], the
    brain name first, and no cell left as a raw float. *)
Definition row_ok (b : string) (row : list pyval) : bool :=
  Nat.eqb (List.length row) (List.length FIELD_NAMES)
  && match row with
     | PyStr b' :: _ => String.eqb b' b
     | _ => false
     end
  && forallb (fun c => negb (is_float c)) row.

Definition is_end_policy_update (c : metrics_call) : bool :=
  match c with
  | EndPolicyUpdate _ _ => true
  | _ => false
  end.

(** [old] starts at no position of [a] in the string [a ++ b]. *)
Fixpoint no_match_in (old a b : string) : bool :=
  match a with
  | EmptyString => true
  | String c a' => negb (String.prefix old (a ++ b)) && no_match_in old a' b
  end.

(** Each reference of [l] is a child of the one before it, [prev] first. *)
Fixpoint descent (prev : ref) (l : list ref) : Prop :=
  match l with
  | [] => True
  | r :: l' => (exists name, r = prev ++ [name]) /\ descent r l'
  end.

(** The stack is empty or goes from the root down, child by child. *)
Definition path_ok (st : list ref) : Prop :=
  match st with
  | [] => True
  | r :: l => r = root_ref /\ descent r l
  end.



(** * Properties *)

(** ** Dictionaries *)

Lemma get_set_same {V} (k : string) (v : V) (d : list (string * V)) :
  Dict.get k (Dict.set k v d) = Some v.
Proof.
  induction d as [|[k' v'] d IH]; simpl.
  - now rewrite String.eqb_refl.
  - destruct (String.eqb k k') eqn:E; simpl; rewrite E; auto.
Qed.

Lemma get_set_other {V} (k k0 : string) (v : V) (d : list (string * V)) :
  k0 <> k -> Dict.get k0 (Dict.set k v d) = Dict.get k0 d.
Proof.
  intros Hne. induction d as [|[k' v'] d IH]; simpl.
  - destruct (String.eqb k0 k) eqn:E; auto.
    apply String.eqb_eq in E. contradiction.
  - destruct (String.eqb k k') eqn:E; simpl.
    + apply String.eqb_eq in E. subst k'.
      destruct (String.eqb k0 k) eqn:E0; auto.
      apply String.eqb_eq in E0. contradiction.
    + now rewrite IH.
Qed.

Lemma set_absent {V} (k : string) (v : V) (d : list (string * V)) :
  Dict.get k d = None -> Dict.set k v d = d ++ [(k, v)].
Proof.
  induction d as [|[k' v'] d IH]; simpl; auto.
  destruct (String.eqb k k'); [discriminate|].
  intros H. now rewrite IH.
Qed.

Lemma set_set {V} (k : string) (v w : V) (d : list (string * V)) :
  Dict.set k w (Dict.set k v d) = Dict.set k w d.
Proof.
  induction d as [|[k' v'] d IH]; simpl.
  - now rewrite String.eqb_refl.
  - destruct (String.eqb k k') eqn:E; simpl; rewrite E; auto.
    now rewrite IH.
Qed.

Lemma set_get_id {V} (k : string) (v : V) (d : list (string * V)) :
  Dict.get k d = Some v -> Dict.set k v d = d.
Proof.
  induction d as [|[k' v'] d IH]; simpl; [discriminate|].
  destruct (String.eqb k k'); intros H.
  - now inversion H.
  - now rewrite IH.
Qed.

Lemma keys_set_present {V} (k : string) (v w : V) (d : list (string * V)) :
  Dict.get k d = Some w -> Dict.keys (Dict.set k v d) = Dict.keys d.
Proof.
  unfold Dict.keys.
  induction d as [|[k' v'] d IH]; simpl; [discriminate|].
  destruct (String.eqb k k'); simpl; auto.
  intros H. now rewrite IH.
Qed.

Lemma get_none_not_in {V} (k : string) (d : list (string * V)) :
  Dict.get k d = None -> ~ In k (Dict.keys d).
Proof.
  unfold Dict.keys.
  induction d as [|[k' v'] d IH]; simpl; auto.
  destruct (String.eqb k k') eqn:E; [discriminate|].
  intros H [H1|H1].
  - subst k'. now rewrite String.eqb_refl in E.
  - now apply IH.
Qed.

(** ** The list used as a stack *)

Lemma top_snoc {A} (l : list A) (a : A) : top (l ++ [a]) = Some a.
Proof.
  induction l as [|b l IH]; simpl; auto.
  rewrite IH. destruct (l ++ [a]) eqn:E; auto.
  destruct l; discriminate.
Qed.

Lemma top_some {A} (l : list A) (a : A) :
  top l = Some a -> exists l', l = l' ++ [a].
Proof.
  destruct l as [|b l] using rev_ind; [discriminate|].
  rewrite top_snoc. intros H. inversion H. eauto.
Qed.

(** ** References *)

Lemma node_at_snoc (r : ref) (name : string) (n : TimerNode) :
  node_at (r ++ [name]) n =
    match node_at r n with
    | Some c => Dict.get name (children c)
    | None => None
    end.
Proof.
  revert n. induction r as [|k r IH]; intros n; simpl.
  - destruct (Dict.get name (children n)); auto.
  - destruct (Dict.get k (children n)); auto.
Qed.

Lemma node_at_put (r : ref) (n' n c : TimerNode) :
  node_at r n = Some c -> node_at r (node_put r n' n) = Some n'.
Proof.
  revert n. induction r as [|k r IH]; intros n; simpl; auto.
  destruct (Dict.get k (children n)) as [c0|] eqn:E; [|discriminate].
  intros H. simpl. rewrite get_set_same. eauto.
Qed.

Lemma node_put_put (r : ref) (n1 n2 n c : TimerNode) :
  node_at r n = Some c ->
  node_put r n2 (node_put r n1 n) = node_put r n2 n.
Proof.
  revert n. induction r as [|k r IH]; intros n; simpl; auto.
  destruct (Dict.get k (children n)) as [c0|] eqn:E; [|discriminate].
  intros H. simpl. rewrite get_set_same.
  unfold with_children. simpl. rewrite set_set. now rewrite (IH _ H).
Qed.

Lemma node_put_same (r : ref) (n c : TimerNode) :
  node_at r n = Some c -> node_put r c n = n.
Proof.
  revert n. induction r as [|k r IH]; intros n; simpl.
  - now inversion 1.
  - destruct (Dict.get k (children n)) as [c0|] eqn:E; [|discriminate].
    intros H. rewrite (IH _ H). rewrite (set_get_id _ _ _ E).
    now destruct n.
Qed.

Lemma node_put_snoc (r : ref) (name : string) (c' n p c : TimerNode) :
  node_at r n = Some p ->
  Dict.get name (children p) = Some c ->
  node_put (r ++ [name]) c' n =
    node_put r (with_children (Dict.set name c' (children p)) p) n.
Proof.
  revert n. induction r as [|k r IH]; intros n; simpl.
  - intros H. inversion H. subst p. intros ->. reflexivity.
  - destruct (Dict.get k (children n)) as [c0|] eqn:E; [|discriminate].
    intros H1 H2. now rewrite (IH _ H1 H2).
Qed.

(** ** TimerNode *)

Lemma start_idle (now : Q) (self : TimerNode) :
  _is_running self = false -> _start now self = (Ok tt, started now self).
Proof. intros H. unfold _start, bind, get, assert. simpl. now rewrite H. Qed.

Lemma start_running (now : Q) (self : TimerNode) :
  _is_running self = true ->
  _start now self =
    (Raise (AssertionError "calling start() on an already-running timer"), self).
Proof. intros H. unfold _start, bind, get, assert. simpl. now rewrite H. Qed.

Lemma end_running (now : Q) (self : TimerNode) :
  _is_running self = true -> _end now self = (Ok tt, ended now self).
Proof. intros H. unfold _end, bind, get, assert. simpl. now rewrite H. Qed.

Lemma end_idle (now : Q) (self : TimerNode) :
  _is_running self = false ->
  _end now self = (Raise (AssertionError "calling _end on a stopped timer"), self).
Proof. intros H. unfold _end, bind, get, assert. simpl. now rewrite H. Qed.

Lemma ended_idle (now : Q) (self : TimerNode) : _is_running (ended now self) = false.
Proof. reflexivity. Qed.

Lemma started_running (now : Q) (self : TimerNode) :
  ~ now == -1 -> _is_running (started now self) = true.
Proof.
  intros H. unfold _is_running. simpl.
  destruct (Qeq_bool now (-1)) eqn:E; auto.
  apply Qeq_bool_eq in E. contradiction.
Qed.

(** C4: on a running node, [_end] adds [now - _start_time] to [total], adds
    one to [count], resets [_start_time] to the not-running sentinel, leaves
    [children] as they are, and returns normally. *)
Theorem end_adds_elapsed (now : Q) (self : TimerNode) :
  _is_running self = true ->
  exists self',
    _end now self = (Ok tt, self')
    /\ total self' = total self + (now - _start_time self)
    /\ count self' = (count self + 1)%Z
    /\ _start_time self' = -1
    /\ _is_running self' = false
    /\ children self' = children self.
Proof.
  intros H. exists (ended now self).
  rewrite (end_running _ _ H). repeat split.
Qed.

Lemma end_adds_elapsed_witness :
  exists self',
    _end 7 (started 5 TimerNode_init) = (Ok tt, self')
    /\ total self' = total (started 5 TimerNode_init)
                      + (7 - _start_time (started 5 TimerNode_init))
    /\ count self' = (count (started 5 TimerNode_init) + 1)%Z
    /\ _start_time self' = -1
    /\ _is_running self' = false
    /\ children self' = children (started 5 TimerNode_init).
Proof. apply (end_adds_elapsed 7 (started 5 TimerNode_init)). reflexivity. Defined.

(** C5: [_start] on a running node raises the assertion failure and [_end]
    on a node that is not running raises the assertion failure; in both
    cases the node is left as it was and whatever follows the call is
    skipped, so the failure reaches the caller.  In the right running state
    the call returns normally. *)
Theorem start_end_assertions (now : Q) (self : TimerNode) :
  _start now self =
    (if _is_running self
     then (Raise (AssertionError "calling start() on an already-running timer"), self)
     else (Ok tt, started now self))
  /\ _end now self =
       (if _is_running self
        then (Ok tt, ended now self)
        else (Raise (AssertionError "calling _end on a stopped timer"), self))
  /\ (forall (A : Type) (k : unit -> Py TimerNode A),
        bind (_start now) k self =
          if _is_running self
          then (Raise (AssertionError "calling start() on an already-running timer"),
                 self)
          else k tt (started now self))
  /\ (forall (A : Type) (k : unit -> Py TimerNode A),
        bind (_end now) k self =
          if _is_running self
          then k tt (ended now self)
          else (Raise (AssertionError "calling _end on a stopped timer"), self)).
Proof.
  destruct (_is_running self) eqn:E.
  - repeat split; intros; unfold bind;
      rewrite ?(start_running _ _ E), ?(end_running _ _ E); reflexivity.
  - repeat split; intros; unfold bind;
      rewrite ?(start_idle _ _ E), ?(end_idle _ _ E); reflexivity.
Qed.

(** ** TimerStack.pop *)

Lemma pop_snoc (rt : TimerNode) (l : list ref) (r : ref) :
  pop {| root := rt; stack := l ++ [r] |} = (Ok tt, {| root := rt; stack := l |}).
Proof.
  unfold pop, bind, get, put. simpl.
  destruct (l ++ [r]) eqn:E.
  - destruct l; discriminate.
  - rewrite <- E. now rewrite removelast_last.
Qed.

Lemma pop_empty (rt : TimerNode) :
  pop {| root := rt; stack := [] |} = (Raise IndexError, {| root := rt; stack := [] |}).
Proof. reflexivity. Qed.

(** C10: [pop] removes the last element of the stack without any guard.
    With only the root on the stack it returns normally and leaves the stack
    empty; on the empty stack it raises. *)
Theorem pop_unguarded (rt : TimerNode) :
  (forall (l : list ref) (r : ref),
      pop {| root := rt; stack := l ++ [r] |} = (Ok tt, {| root := rt; stack := l |}))
  /\ pop {| root := rt; stack := [root_ref] |} = (Ok tt, {| root := rt; stack := [] |})
  /\ pop {| root := rt; stack := [] |} = (Raise IndexError, {| root := rt; stack := [] |})
  /\ (pop ;;; pop) {| root := rt; stack := [root_ref] |}
     = (Raise IndexError, {| root := rt; stack := [] |})
  /\ (forall now : Q,
        pop (TimerStack_init now) = (Ok tt, {| root := root (TimerStack_init now);
                                               stack := [] |})).
Proof.
  repeat split; try reflexivity.
  intros. apply pop_snoc.
Qed.

(** ** TimerStack.push *)

Lemma push_absent (name : string) (ts : TimerStack) (cur : ref) (current : TimerNode) :
  top (stack ts) = Some cur ->
  node_at cur (root ts) = Some current ->
  Dict.get name (children current) = None ->
  push name ts =
    (Ok (cur ++ [name]),
     {| root := node_put cur
                  (with_children (children current ++ [(name, TimerNode_init)]) current)
                  (root ts);
        stack := stack ts ++ [cur ++ [name]] |}).
Proof.
  intros Ht Hn Hg. unfold push, bind, get. simpl.
  rewrite Ht, Hn, Hg. simpl. now rewrite (set_absent _ _ _ Hg).
Qed.

Lemma push_present (name : string) (ts : TimerStack) (cur : ref)
    (current c : TimerNode) :
  top (stack ts) = Some cur ->
  node_at cur (root ts) = Some current ->
  Dict.get name (children current) = Some c ->
  push name ts =
    (Ok (cur ++ [name]),
     {| root := root ts; stack := stack ts ++ [cur ++ [name]] |}).
Proof.
  intros Ht Hn Hg. unfold push, bind, get. simpl.
  now rewrite Ht, Hn, Hg.
Qed.

Lemma push_empty (name : string) (rt : TimerNode) :
  push name {| root := rt; stack := [] |}
  = (Raise IndexError, {| root := rt; stack := [] |}).
Proof. reflexivity. Qed.

(** C3: with [current] the node at the top of the stack, [push name] returns
    normally with a reference to the child [name] of [current] and appends
    that reference to the stack.  If [current] has a child of that name the
    tree is left exactly as it was, so the child is reused with its fields
    untouched and no entry is added; otherwise a fresh node (not running,
    [total] 0, [count] 0) is added after the existing children and nothing
    else of [current] changes.  Distinct child names stay distinct. *)
Theorem push_reuses_or_creates (name : string) (ts : TimerStack) (cur : ref)
    (current : TimerNode) :
  top (stack ts) = Some cur ->
  node_at cur (root ts) = Some current ->
  exists (ts' : TimerStack) (current' child : TimerNode),
    push name ts = (Ok (cur ++ [name]), ts')
    /\ stack ts' = stack ts ++ [cur ++ [name]]
    /\ node_at cur (root ts') = Some current'
    /\ node_at (cur ++ [name]) (root ts') = Some child
    /\ Dict.get name (children current') = Some child
    /\ match Dict.get name (children current) with
       | Some c => root ts' = root ts /\ current' = current /\ child = c
       | None =>
           children current' = children current ++ [(name, TimerNode_init)]
           /\ child = TimerNode_init
           /\ _is_running child = false
           /\ total child = 0 /\ count child = 0%Z
       end
    /\ _start_time current' = _start_time current
    /\ total current' = total current
    /\ count current' = count current
    /\ (NoDup (Dict.keys (children current)) ->
        NoDup (Dict.keys (children current'))).
Proof.
  intros Ht Hn.
  destruct (Dict.get name (children current)) as [c|] eqn:Hg.
  - exists {| root := root ts; stack := stack ts ++ [cur ++ [name]] |}, current, c.
    rewrite (push_present _ _ _ _ _ Ht Hn Hg). simpl.
    rewrite node_at_snoc, Hn. repeat split; auto.
  - exists {| root := node_put cur
                       (with_children (children current ++ [(name, TimerNode_init)])
                          current) (root ts);
              stack := stack ts ++ [cur ++ [name]] |},
      (with_children (children current ++ [(name, TimerNode_init)]) current),
      TimerNode_init.
    rewrite (push_absent _ _ _ _ Ht Hn Hg). simpl.
    rewrite node_at_snoc, (node_at_put _ _ _ _ Hn). simpl.
    rewrite <- (set_absent _ TimerNode_init _ Hg), get_set_same.
    repeat split; auto.
    rewrite (set_absent _ TimerNode_init _ Hg).
    unfold Dict.keys. rewrite map_app. simpl. intros Hnd.
    apply NoDup_app; repeat split; auto.
    + constructor; [intros []|constructor].
    + intros k Hin [Hk|[]]. subst k.
      now apply (get_none_not_in _ _ Hg).
Qed.

Lemma push_reuses_or_creates_witness :
  exists (ts' : TimerStack) (current' child : TimerNode),
    push "update" (TimerStack_init 1) = (Ok ([] ++ ["update"]), ts')
    /\ stack ts' = stack (TimerStack_init 1) ++ [[] ++ ["update"]]
    /\ node_at [] (root ts') = Some current'
    /\ node_at ([] ++ ["update"]) (root ts') = Some child
    /\ Dict.get "update" (children current') = Some child
    /\ match Dict.get "update" (children (root (TimerStack_init 1))) with
       | Some c => root ts' = root (TimerStack_init 1)
                   /\ current' = root (TimerStack_init 1) /\ child = c
       | None =>
           children current'
           = children (root (TimerStack_init 1)) ++ [("update", TimerNode_init)]
           /\ child = TimerNode_init
           /\ _is_running child = false
           /\ total child = 0 /\ count child = 0%Z
       end
    /\ _start_time current' = _start_time (root (TimerStack_init 1))
    /\ total current' = total (root (TimerStack_init 1))
    /\ count current' = count (root (TimerStack_init 1))
    /\ (NoDup (Dict.keys (children (root (TimerStack_init 1)))) ->
        NoDup (Dict.keys (children current'))).
Proof.
  apply (push_reuses_or_creates "update" (TimerStack_init 1) [] (root (TimerStack_init 1)));
    reflexivity.
Defined.

(** ** The timing tree *)

Lemma TimerNode_tree_ind (P : TimerNode -> Prop) :
  (forall ch st tot cnt,
      Forall (fun kv => P (snd kv)) ch -> P (mkTimerNode ch st tot cnt)) ->
  forall n, P n.
Proof.
  intros step. fix IH 1. intros [ch st tot cnt]. apply step.
  induction ch as [|[k c] l IHl]; constructor; [apply IH | apply IHl].
Qed.

Lemma py_max_nonneg (x : Q) : 0 <= py_max 0 x.
Proof.
  unfold py_max, Qlt_bool.
  destruct (Qle_bool x 0) eqn:E; simpl.
  - apply Qle_refl.
  - apply Qlt_le_weak, Qnot_le_lt. intros H.
    apply Qle_bool_iff in H. congruence.
Qed.

Lemma tree_record_named (node : TimerNode) (res : pydict) (name : string) :
  tree_record node res ->
  Dict.update [("name", PyStr name)] res = ("name", PyStr name) :: res
  /\ Dict.get "total" res = Some (PyFloat (total node)).
Proof.
  unfold tree_record. destruct (children node).
  - intros ->. split; reflexivity.
  - intros [recs [-> _]]. split; reflexivity.
Qed.

Lemma child_items_ok (l : list (string * TimerNode)) :
  Forall (fun kv => exists res, timing_tree (snd kv) = Ok res
                                /\ tree_record (snd kv) res) l ->
  forall acc ct,
  exists recs,
    child_items timing_tree l acc ct
    = Ok (acc ++ recs, fold_left (fun a r => a + record_total r) recs ct)
    /\ map record_name recs = map fst l
    /\ map record_total recs = map (fun kv => total (snd kv)) l.
Proof.
  induction 1 as [|[k c] l [res [Hres Hrec]] _ IH]; intros acc ct.
  - exists []. simpl. now rewrite app_nil_r.
  - simpl in Hres, Hrec. simpl. rewrite Hres.
    destruct (tree_record_named _ _ k Hrec) as [Hu Ht].
    rewrite Hu. unfold add_total, Dict.getitem.
    change (Dict.get "total" (("name", PyStr k) :: res)) with (Dict.get "total" res).
    rewrite Ht.
    destruct (IH (acc ++ [PyDict (("name", PyStr k) :: res)]) (ct + total c))
      as [recs [H1 [H2 H3]]].
    exists (PyDict (("name", PyStr k) :: res) :: recs).
    rewrite H1, <- app_assoc. simpl.
    change (Dict.get "total" (("name", PyStr k) :: res)) with (Dict.get "total" res).
    rewrite Ht, H2, H3. auto.
Qed.

Lemma timing_tree_record (node : TimerNode) :
  exists res, timing_tree node = Ok res /\ tree_record node res.
Proof.
  induction node as [ch st tot cnt IH] using TimerNode_tree_ind.
  destruct ch as [|kv ch].
  - eexists. split; reflexivity.
  - destruct (child_items_ok _ IH [] 0) as [recs [H1 [H2 H3]]].
    unfold tree_record. cbn [children total count].
    cbn [timing_tree]. rewrite H1. cbn [app].
    eexists. split; [reflexivity|].
    exists recs. auto.
Qed.


(** [get_timing_tree()] ends the root, which must be running, and reports
    the tree below the ended root. *)
Lemma get_timer_tree_running (now : Q) (ts : TimerStack) :
  _is_running (root ts) = true ->
  get_timer_tree now ts
  = (timing_tree (ended now (root ts)),
     {| root := ended now (root ts); stack := stack ts |}).
Proof.
  intros H. unfold get_timer_tree, get_timing_tree, bind, ret, get, lift, with_node.
  simpl. rewrite (end_running _ _ H). reflexivity.
Qed.

Lemma get_timer_tree_idle (now : Q) (rt : TimerNode) (st : list ref) :
  _is_running rt = false ->
  get_timer_tree now {| root := rt; stack := st |}
  = (Raise (AssertionError "calling _end on a stopped timer"),
     {| root := rt; stack := st |}).
Proof.
  intros H. unfold get_timer_tree, get_timing_tree, bind, ret, get, lift, with_node.
  simpl. rewrite (end_idle _ _ H). reflexivity.
Qed.










(** ** The flat recorder *)

Ltac run_call :=
  unfold call, start_experience_collection_timer, end_experience_collection_timer,
    add_delta_step, start_policy_update_timer, bind, get, modify, ret, truthy;
  match goal with
  | m : TrainerMetrics |- _ =>
      destruct (time_start_experience_collection m);
      destruct (delta_last_experience_collection m)
  end;
  cbn;
  repeat match goal with
         | |- context [if negb (Qeq_bool ?a ?b) then _ else _] =>
             destruct (Qeq_bool a b); cbn
         end;
  repeat split; auto.

(** No call other than [start_policy_update_timer] touches the recorded
    start of the policy update or the recorded mean return. *)
Lemma call_keeps_start (c : metrics_call) (m : TrainerMetrics) :
  is_start_policy_update c = false ->
  time_policy_update_start (snd (call c m)) = time_policy_update_start m
  /\ last_mean_return (snd (call c m)) = last_mean_return m
  /\ time_training_start (snd (call c m)) = time_training_start m.
Proof.
  destruct c; simpl is_start_policy_update; intros H; try discriminate.
  - run_call.
  - run_call.
  - run_call.
  - unfold call, end_policy_update, bind, get, modify, lift.
    destruct (time_policy_update_start m) as [start|] eqn:Hs;
      [destruct (truthy (Some start))|];
      cbn [fst snd];
      match goal with
      | |- context [policy_update_message ?a ?b] =>
          destruct (policy_update_message a b)
      end; cbn; rewrite ?Hs; auto.
Qed.

Lemma after_calls_keeps_start (cs : list metrics_call) (m : TrainerMetrics) :
  never_started cs = true ->
  time_policy_update_start (after_calls cs m) = time_policy_update_start m
  /\ last_mean_return (after_calls cs m) = last_mean_return m
  /\ time_training_start (after_calls cs m) = time_training_start m.
Proof.
  revert m. induction cs as [|c cs IH]; intros m; simpl; auto.
  intros H. apply andb_prop in H. destruct H as [Hc Hcs].
  apply negb_true_iff in Hc.
  destruct (call_keeps_start c m Hc) as [H1 [H2 H3]].
  destruct (IH (snd (call c m)) Hcs) as [H4 [H5 H6]].
  unfold after_calls in *. now rewrite H4, H5, H6.
Qed.

Lemma policy_update_message_no_mean_return (m : TrainerMetrics) (t : Q) :
  last_mean_return m = None -> policy_update_message m t = Raise TypeError.
Proof.
  intros Hr. unfold policy_update_message. rewrite Hr.
  destruct (delta_policy_update m); cbn; auto;
    destruct (delta_last_experience_collection m); cbn; auto;
    destruct (last_buffer_length m); cbn; auto.
Qed.

(** Without a recorded mean return the message of [end_policy_update]
    cannot be formatted: the call raises after it has set the duration and
    before it adds a row. *)
Lemma end_policy_update_no_mean_return (t_update t_now : Q) (m : TrainerMetrics) :
  last_mean_return m = None ->
  exists d,
    end_policy_update t_update t_now m = (Raise TypeError, set_delta_policy_update d m)
    /\ (time_policy_update_start m = None -> d = PyInt 0).
Proof.
  intros Hr.
  unfold end_policy_update, bind, get, modify, lift.
  destruct (time_policy_update_start m) as [start|] eqn:Hs;
    [destruct (truthy (Some start))|]; cbn [fst snd];
    rewrite policy_update_message_no_mean_return by exact Hr;
    eexists; (split; [reflexivity|]); try discriminate; reflexivity.
Qed.

(** C8: on a recorder for which no policy update was ever started,
    [end_policy_update] sets the duration to the int [0], then raises
    [TypeError] while formatting the log message, and adds no row. *)
Theorem end_policy_update_never_started_raises
    (p b : string) (t0 t_update t_now : Q) :
  end_policy_update t_update t_now (TrainerMetrics_init p b t0)
  = (Raise TypeError, set_delta_policy_update (PyInt 0) (TrainerMetrics_init p b t0))
  /\ rows (snd (end_policy_update t_update t_now (TrainerMetrics_init p b t0))) = []
  /\ delta_policy_update
       (snd (end_policy_update t_update t_now (TrainerMetrics_init p b t0)))
     = PyInt 0.
Proof. repeat split. Qed.

(** The same after any calls that do not start a policy update: the rows
    are the rows before the call. *)
Lemma end_policy_update_never_started_general
    (p b : string) (t0 t_update t_now : Q) (cs : list metrics_call) :
  never_started cs = true ->
  let m := after_calls cs (TrainerMetrics_init p b t0) in
  end_policy_update t_update t_now m
  = (Raise TypeError, set_delta_policy_update (PyInt 0) m)
  /\ rows (snd (end_policy_update t_update t_now m)) = rows m.
Proof.
  intros H m.
  destruct (after_calls_keeps_start cs (TrainerMetrics_init p b t0) H) as [H1 [H2 _]].
  fold m in H1, H2. simpl in H1, H2.
  destruct (end_policy_update_no_mean_return t_update t_now m H2) as [d [Hd Hz]].
  rewrite (Hz H1) in Hd. rewrite Hd. split; reflexivity.
Qed.

(** Once a policy update was started at a non-zero reading [t0], no later
    call other than another start clears the recorded start; every
    [end_policy_update] after it sets the duration to its own reading minus
    [t0], whether or not an [end_policy_update] came in between. *)
Lemma end_policy_update_uses_recorded_start (t_update t_now t0 : Q) (m : TrainerMetrics) :
  time_policy_update_start m = Some t0 ->
  ~ t0 == 0 ->
  time_policy_update_start (snd (end_policy_update t_update t_now m)) = Some t0
  /\ delta_policy_update (snd (end_policy_update t_update t_now m))
     = PyFloat (t_update - t0).
Proof.
  intros Hs Hnz.
  unfold end_policy_update, bind, get, modify, lift, truthy. rewrite Hs.
  destruct (Qeq_bool t0 0) eqn:E; [apply Qeq_bool_eq in E; contradiction|].
  cbn [negb fst snd].
  match goal with
  | |- context [policy_update_message ?a ?b] => destruct (policy_update_message a b)
  end; cbn; auto.
Qed.

(** C9: after [start_policy_update_timer] at a non-zero reading [t0], and
    any further calls that are not a start (among them a first
    [end_policy_update]), the recorded start is still [t0], and an
    [end_policy_update] sets the duration to its reading minus the stale
    [t0], not to zero, and still does not clear the start.  On a recorder
    never started since construction the duration is set to the int [0]. *)
Theorem end_policy_update_stale_start
    (m : TrainerMetrics) (n : Z) (r t0 : Q) (cs : list metrics_call)
    (t_update t_now : Q) (p b : string) (t_init : Q) :
  ~ t0 == 0 ->
  never_started cs = true ->
  let m1 := snd (start_policy_update_timer n r t0 m) in
  let m2 := after_calls cs m1 in
  let m3 := snd (end_policy_update t_update t_now m2) in
  time_policy_update_start m1 = Some t0
  /\ time_policy_update_start m2 = Some t0
  /\ time_policy_update_start m3 = Some t0
  /\ delta_policy_update m3 = PyFloat (t_update - t0)
  /\ delta_policy_update
       (snd (end_policy_update t_update t_now
               (after_calls cs (TrainerMetrics_init p b t_init))))
     = PyInt 0.
Proof.
  intros Hnz Hcs m1 m2 m3.
  assert (H1 : time_policy_update_start m1 = Some t0) by reflexivity.
  destruct (after_calls_keeps_start cs m1 Hcs) as [H2 _].
  fold m2 in H2. rewrite H1 in H2.
  destruct (end_policy_update_uses_recorded_start t_update t_now t0 m2 H2 Hnz)
    as [H3 H4].
  repeat split; auto.
  destruct (end_policy_update_never_started_general p b t_init t_update t_now cs Hcs)
    as [H5 _].
  rewrite H5. reflexivity.
Qed.

Lemma end_policy_update_stale_start_witness :
  let m := TrainerMetrics_init "run.csv" "brain" 100 in
  let m1 := snd (start_policy_update_timer 350 (3 # 10) 101 m) in
  let m2 := after_calls [EndPolicyUpdate 103 103] m1 in
  let m3 := snd (end_policy_update 110 110 m2) in
  time_policy_update_start m1 = Some 101
  /\ time_policy_update_start m2 = Some 101
  /\ time_policy_update_start m3 = Some 101
  /\ delta_policy_update m3 = PyFloat (110 - 101)
  /\ delta_policy_update
       (snd (end_policy_update 110 110
               (after_calls [EndPolicyUpdate 103 103]
                  (TrainerMetrics_init "run.csv" "brain" 100))))
     = PyInt 0.
Proof.
  apply (end_policy_update_stale_start
           (TrainerMetrics_init "run.csv" "brain" 100) 350 (3 # 10) 101
           [EndPolicyUpdate 103 103] 110 110 "run.csv" "brain" 100).
  - intros H. vm_compute in H. discriminate.
  - reflexivity.
Defined.

(** C7: the path of the tree file is [path.replace('csv', 'hierarchy.json')],
    which rewrites every occurrence of [csv] in the path: with a directory
    named [csv_runs] the directory part is altered too, and a path that has
    no [csv] in it is returned as it is, so the tree file is the row file. *)
Theorem json_path_replaces_every_csv :
  json_path (TrainerMetrics_init "csv_runs/brain.csv" "brain" 0)
  = "hierarchy.json_runs/brain.hierarchy.json"
  /\ json_path (TrainerMetrics_init "csv_runs/brain.csv" "brain" 0)
     <> "csv_runs/brain.hierarchy.json"
  /\ json_path (TrainerMetrics_init "runs/brain.tsv" "brain" 0) = "runs/brain.tsv".
Proof. repeat split. intros H. discriminate. Qed.

(** ** The scoped region helper *)

Lemma bind_ok {S A B} (m : Py S A) (k : A -> Py S B) (s s' : S) (a : A)
    (r : result B * S) :
  m s = (Ok a, s') -> k a s' = r -> bind m k s = r.
Proof. intros Hm Hk. unfold bind. now rewrite Hm. Qed.


Lemma with_node_at {A} (r : ref) (m : Py TimerNode A) (ts : TimerStack)
    (n n' : TimerNode) (res : result A) :
  node_at r (root ts) = Some n ->
  m n = (res, n') ->
  with_node r m ts = (res, {| root := node_put r n' (root ts); stack := stack ts |}).
Proof. intros Hn Hm. unfold with_node. now rewrite Hn, Hm. Qed.

(** C1: when the wrapped body raises, the helper propagates the exception
    without running [_end] or [pop]: the pushed node is still running, its
    [total] and [count] are untouched, and the stack is one deeper than
    before entry. *)
Theorem hierarchical_timer_body_raises
    (name tag : string) (now0 t_start t_end : Q) :
  exists ts',
    hierarchical_timer name t_start t_end
      (fun _ => raise (A := unit) (BodyError tag)) (TimerStack_init now0)
    = (Raise (BodyError tag), ts')
    /\ stack ts' = [root_ref; [name]]
    /\ List.length (stack ts') = S (List.length (stack (TimerStack_init now0)))
    /\ node_at [name] (root ts') = Some (started t_start TimerNode_init).
Proof.
  eexists. unfold hierarchical_timer, bind.
  rewrite (push_absent name (TimerStack_init now0) [] (root (TimerStack_init now0)))
    by reflexivity.
  rewrite (with_node_at [name] (_start t_start) _ TimerNode_init
             (started t_start TimerNode_init) (Ok tt)).
  - unfold raise. split; [reflexivity|]. cbn.
    rewrite !String.eqb_refl. cbn. rewrite String.eqb_refl. auto.
  - cbn. now rewrite String.eqb_refl.
  - reflexivity.
Qed.

(** On the failing input of C1 proper: a body that raises inside region
    ["a"] of a fresh stack leaves the stack two deep and the node running. *)
Example region_a_body_raises :
  let out := hierarchical_timer "a" 5 6 (fun _ => raise (A := unit) (BodyError "boom"))
               (TimerStack_init 1) in
  fst out = Raise (BodyError "boom")
  /\ stack (snd out) = [[]; ["a"]]
  /\ option_map _is_running (node_at ["a"] (root (snd out))) = Some true.
Proof. repeat split. Qed.

(** The same region with a body that returns: the stack is back at the
    root and the node has been ended. *)
Example region_a_body_returns :
  let out := hierarchical_timer "a" 5 6 (fun _ => ret tt) (TimerStack_init 1) in
  fst out = Ok tt
  /\ stack (snd out) = [[]]
  /\ option_map _is_running (node_at ["a"] (root (snd out))) = Some false.
Proof. repeat split. Qed.

(** ** Properly nested regions *)

Lemma run_ops_app (a b : list timer_op) (ts : TimerStack) :
  run_ops (a ++ b) ts =
    match run_ops a ts with
    | (Ok _, ts') => run_ops b ts'
    | (Raise e, ts') => (Raise e, ts')
    end.
Proof.
  revert ts. induction a as [|o a IH]; intros ts; simpl; auto.
  unfold bind. destruct (step o ts) as [[[]|e] ts1]; auto.
Qed.

Lemma states_of_app (a b : list timer_op) (ts ts' : TimerStack) :
  run_ops a ts = (Ok tt, ts') ->
  states_of (a ++ b) ts = states_of a ts ++ states_of b ts'.
Proof.
  revert ts. induction a as [|o a IH]; intros ts; simpl.
  - unfold ret. now inversion 1.
  - unfold bind. destruct (step o ts) as [[[]|e] ts1]; [|discriminate].
    intros H. simpl. now rewrite (IH _ H).
Qed.

Lemma runs_within_nil (base : list ref) (ts : TimerStack) : runs_within base [] ts ts.
Proof. repeat split. constructor. Qed.

Lemma runs_within_cons (base : list ref) (o : timer_op) (ops : list timer_op)
    (ts ts1 ts' : TimerStack) :
  step o ts = (Ok tt, ts1) ->
  (exists ext, stack ts1 = base ++ ext) ->
  runs_within base ops ts1 ts' ->
  runs_within base (o :: ops) ts ts'.
Proof.
  intros Hs Hb [H1 [H2 H3]]. unfold runs_within. simpl. unfold bind.
  rewrite Hs. simpl. repeat split; auto.
Qed.

Lemma runs_within_app (base : list ref) (a b : list timer_op)
    (ts ts1 ts' : TimerStack) :
  runs_within base a ts ts1 ->
  runs_within base b ts1 ts' ->
  runs_within base (a ++ b) ts ts'.
Proof.
  intros [A1 [A2 A3]] [B1 [B2 B3]]. unfold runs_within.
  rewrite run_ops_app, A1, (states_of_app _ _ _ _ A1).
  repeat split; auto.
  - rewrite !length_app. congruence.
  - apply Forall_app. auto.
Qed.

Lemma runs_within_weaken (base x : list ref) (ops : list timer_op)
    (ts ts' : TimerStack) :
  runs_within (base ++ x) ops ts ts' -> runs_within base ops ts ts'.
Proof.
  intros [H1 [H2 H3]]. repeat split; auto.
  eapply Forall_impl; [|exact H3].
  intros s [ext Hs]. exists (x ++ ext). now rewrite Hs, app_assoc.
Qed.

Lemma idle_tree_eq (n : TimerNode) :
  idle_tree n = Qeq_bool (_start_time n) (-1) && kids_idle n.
Proof. now destruct n. Qed.

Lemma idle_not_running (n : TimerNode) : idle_tree n = true -> _is_running n = false.
Proof.
  rewrite idle_tree_eq. intros H. apply andb_prop in H.
  unfold _is_running. now rewrite (proj1 H).
Qed.

Lemma idle_kids_idle (n : TimerNode) : idle_tree n = true -> kids_idle n = true.
Proof. rewrite idle_tree_eq. intros H. now apply andb_prop in H. Qed.

Lemma forallb_get {V} (f : V -> bool) (k : string) (v : V) (d : list (string * V)) :
  forallb (fun kv => f (snd kv)) d = true ->
  Dict.get k d = Some v -> f v = true.
Proof.
  induction d as [|[k' v'] d IH]; simpl; [discriminate|].
  intros H. apply andb_prop in H. destruct H as [H1 H2].
  destruct (String.eqb k k'); intros Hg.
  - now inversion Hg; subst.
  - auto.
Qed.

Lemma forallb_set {V} (f : V -> bool) (k : string) (v : V) (d : list (string * V)) :
  forallb (fun kv => f (snd kv)) d = true ->
  f v = true ->
  forallb (fun kv => f (snd kv)) (Dict.set k v d) = true.
Proof.
  intros Hd Hv. induction d as [|[k' v'] d IH]; simpl.
  - now rewrite Hv.
  - simpl in Hd. apply andb_prop in Hd. destruct Hd as [H1 H2].
    destruct (String.eqb k k'); simpl.
    + now rewrite Hv, H2.
    + now rewrite H1, IH.
Qed.

(** The effect of a push on the node [n] at the top of the stack, in the
    form the nesting argument uses. *)
Lemma push_call (name : string) (rt : TimerNode) (ps : list ref) (p : ref)
    (n : TimerNode) :
  node_at p rt = Some n ->
  kids_idle n = true ->
  exists rt1 n1 c0,
    push name {| root := rt; stack := ps ++ [p] |}
    = (Ok (p ++ [name]), {| root := rt1; stack := (ps ++ [p]) ++ [p ++ [name]] |})
    /\ node_at p rt1 = Some n1
    /\ Dict.get name (children n1) = Some c0
    /\ idle_tree c0 = true
    /\ kids_idle n1 = true
    /\ _start_time n1 = _start_time n
    /\ (forall x, node_put p x rt1 = node_put p x rt).
Proof.
  intros Hn Hk.
  assert (Ht : top (stack {| root := rt; stack := ps ++ [p] |}) = Some p)
    by apply top_snoc.
  destruct (Dict.get name (children n)) as [c|] eqn:Hg.
  - exists rt, n, c.
    rewrite (push_present name _ p n c Ht Hn Hg). simpl.
    repeat split; auto.
    exact (forallb_get idle_tree name c (children n) Hk Hg).
  - exists (node_put p (with_children (children n ++ [(name, TimerNode_init)]) n) rt),
      (with_children (children n ++ [(name, TimerNode_init)]) n), TimerNode_init.
    rewrite (push_absent name _ p n Ht Hn Hg). simpl.
    repeat split; auto.
    + eapply node_at_put; eauto.
    + rewrite <- (set_absent _ TimerNode_init _ Hg). apply get_set_same.
    + unfold kids_idle. simpl. rewrite forallb_app. fold (kids_idle n).
      now rewrite Hk.
    + intros x. eapply node_put_put; eauto.
Qed.

Lemma push_step (name : string) (rt : TimerNode) (ps : list ref) (p : ref)
    (n : TimerNode) :
  node_at p rt = Some n ->
  kids_idle n = true ->
  exists rt1 n1 c0,
    step (Push name) {| root := rt; stack := ps ++ [p] |}
    = (Ok tt, {| root := rt1; stack := (ps ++ [p]) ++ [p ++ [name]] |})
    /\ node_at p rt1 = Some n1
    /\ Dict.get name (children n1) = Some c0
    /\ idle_tree c0 = true
    /\ kids_idle n1 = true
    /\ _start_time n1 = _start_time n
    /\ (forall x, node_put p x rt1 = node_put p x rt).
Proof.
  intros Hn Hk.
  destruct (push_call name rt ps p n Hn Hk) as [rt1 [n1 [c0 [Hpush H]]]].
  exists rt1, n1, c0. split; [|exact H].
  unfold step, bind. now rewrite Hpush.
Qed.

Lemma on_top_step {A} (m : Py TimerNode A) (rt : TimerNode) (ps : list ref)
    (q : ref) (c c' : TimerNode) (res : result A) :
  node_at q rt = Some c ->
  m c = (res, c') ->
  on_top m {| root := rt; stack := ps ++ [q] |}
  = (res, {| root := node_put q c' rt; stack := ps ++ [q] |}).
Proof.
  intros Hn Hm. unfold on_top, bind, get. simpl. rewrite top_snoc.
  now rewrite (with_node_at q m {| root := rt; stack := ps ++ [q] |} c c' res Hn Hm).
Qed.

(** The nesting argument: below a node [n] at the top of the stack whose
    descendants are all idle, the calls of properly nested regions all
    return, never touch the stack up to [n], put the stack back as it was,
    and leave the descendants of [n] idle. *)
Lemma regions_run (rs : regions) :
  start_readings_ok rs = true ->
  forall (rt : TimerNode) (ps : list ref) (p : ref) (n : TimerNode),
    node_at p rt = Some n ->
    kids_idle n = true ->
    exists n',
      runs_within (ps ++ [p]) (ops_of rs)
        {| root := rt; stack := ps ++ [p] |}
        {| root := node_put p n' rt; stack := ps ++ [p] |}
      /\ kids_idle n' = true
      /\ _start_time n' = _start_time n.
Proof.
  induction rs as [|name t1 t2 inner IHi rest IHr]; intros Hok rt ps p n Hn Hk.
  - exists n. rewrite (node_put_same _ _ _ Hn). repeat split; auto.
  - simpl in Hok. apply andb_prop in Hok. destruct Hok as [Hok Hrest].
    apply andb_prop in Hok. destruct Hok as [Ht1 Hinner].
    destruct (push_step name rt ps p n Hn Hk)
      as [rt1 [n1 [c0 [Hpush [Hn1 [Hc0 [Hidle [Hk1 [Hst1 Hput]]]]]]]]].
    set (q := p ++ [name]) in *.
    assert (Hq1 : node_at q rt1 = Some c0).
    { unfold q. now rewrite node_at_snoc, Hn1. }
    pose proof (on_top_step (_start t1) rt1 (ps ++ [p]) q c0 (started t1 c0) (Ok tt)
                  Hq1 (start_idle t1 c0 (idle_not_running _ Hidle))) as Hstart.
    set (rt2 := node_put q (started t1 c0) rt1) in *.
    assert (Hq2 : node_at q rt2 = Some (started t1 c0)).
    { unfold rt2. eapply node_at_put; eauto. }
    destruct (IHi Hinner rt2 (ps ++ [p]) q (started t1 c0) Hq2
                (idle_kids_idle _ Hidle))
      as [c' [Hrun_i [Hk' Hst']]].
    set (rt3 := node_put q c' rt2) in *.
    assert (Hq3 : node_at q rt3 = Some c').
    { unfold rt3. eapply node_at_put; eauto. }
    assert (Hrun' : _is_running c' = true).
    { unfold _is_running. rewrite Hst'. exact Ht1. }
    pose proof (on_top_step (_end t2) rt3 (ps ++ [p]) q c' (ended t2 c') (Ok tt)
                  Hq3 (end_running t2 c' Hrun')) as Hend.
    set (n4 := with_children (Dict.set name (ended t2 c') (children n1)) n1).
    assert (Hrt4 : node_put q (ended t2 c') rt3 = node_put p n4 rt).
    { unfold rt3.
      rewrite (node_put_put q c' (ended t2 c') rt2 _ Hq2).
      unfold rt2.
      rewrite (node_put_put q (started t1 c0) (ended t2 c') rt1 _ Hq1).
      unfold q. rewrite (node_put_snoc p name (ended t2 c') rt1 n1 c0 Hn1 Hc0).
      apply Hput. }
    rewrite Hrt4 in Hend.
    assert (Hn4 : node_at p (node_put p n4 rt) = Some n4)
      by (eapply node_at_put; eauto).
    assert (Hk4 : kids_idle n4 = true).
    { unfold kids_idle, n4. simpl. apply forallb_set; [exact Hk1|].
      rewrite idle_tree_eq. simpl. exact Hk'. }
    destruct (IHr Hrest (node_put p n4 rt) ps p n4 Hn4 Hk4)
      as [n' [Hrun_r [Hkn' Hstn']]].
    rewrite (node_put_put p n4 n' rt n Hn) in Hrun_r.
    exists n'. split; [|split; [exact Hkn'|]].
    + change (ops_of (Region name t1 t2 inner rest))
        with (Push name :: Start t1
                :: (ops_of inner ++ End t2 :: Pop :: ops_of rest)).
      eapply runs_within_cons; [exact Hpush|exists [q]; reflexivity|].
      eapply runs_within_cons; [exact Hstart|exists [q]; reflexivity|].
      eapply runs_within_app; [eapply runs_within_weaken; exact Hrun_i|].
      eapply runs_within_cons; [exact Hend|exists [q]; reflexivity|].
      eapply runs_within_cons;
        [apply pop_snoc|exists []; simpl; now rewrite app_nil_r|].
      exact Hrun_r.
    + rewrite Hstn'. unfold n4. simpl. exact Hst1.
Qed.

(** The helper on the normal path: with a body made of properly nested
    regions, the helper returns, the stack is as before entry, and the node
    it pushed has been ended. *)
Lemma hierarchical_timer_returns (name : string) (t_start t_end : Q)
    (inner : regions) (rt : TimerNode) (ps : list ref) (p : ref) (n : TimerNode) :
  node_at p rt = Some n ->
  kids_idle n = true ->
  Qeq_bool t_start (-1) = false ->
  start_readings_ok inner = true ->
  exists n' c,
    hierarchical_timer name t_start t_end (fun _ => run_ops (ops_of inner))
      {| root := rt; stack := ps ++ [p] |}
    = (Ok tt, {| root := node_put p n' rt; stack := ps ++ [p] |})
    /\ Dict.get name (children n') = Some c
    /\ _is_running c = false.
Proof.
  intros Hn Hk Ht1 Hinner.
  destruct (push_call name rt ps p n Hn Hk)
    as [rt1 [n1 [c0 [Hpush [Hn1 [Hc0 [Hidle [Hk1 [Hst1 Hput]]]]]]]]].
  set (q := p ++ [name]) in *.
  assert (Hq1 : node_at q rt1 = Some c0).
  { unfold q. now rewrite node_at_snoc, Hn1. }
  set (ts1 := {| root := rt1; stack := (ps ++ [p]) ++ [q] |}) in *.
  pose proof (with_node_at q (_start t_start) ts1 c0 (started t_start c0) (Ok tt)
                Hq1 (start_idle t_start c0 (idle_not_running _ Hidle))) as Hstart.
  simpl in Hstart.
  set (rt2 := node_put q (started t_start c0) rt1) in *.
  assert (Hq2 : node_at q rt2 = Some (started t_start c0)).
  { unfold rt2. eapply node_at_put; eauto. }
  destruct (regions_run inner Hinner rt2 (ps ++ [p]) q (started t_start c0) Hq2
              (idle_kids_idle _ Hidle))
    as [c' [[Hrun_i _] [Hk' Hst']]].
  set (rt3 := node_put q c' rt2) in *.
  set (ts3 := {| root := rt3; stack := (ps ++ [p]) ++ [q] |}) in *.
  assert (Hq3 : node_at q (root ts3) = Some c').
  { simpl. unfold rt3. eapply node_at_put; eauto. }
  assert (Hrun' : _is_running c' = true).
  { unfold _is_running. rewrite Hst'. simpl. now rewrite Ht1. }
  pose proof (with_node_at q (_end t_end) ts3 c' (ended t_end c') (Ok tt)
                Hq3 (end_running t_end c' Hrun')) as Hend.
  simpl in Hend.
  set (n4 := with_children (Dict.set name (ended t_end c') (children n1)) n1).
  assert (Hrt4 : node_put q (ended t_end c') rt3 = node_put p n4 rt).
  { unfold rt3.
    rewrite (node_put_put q c' (ended t_end c') rt2 _ Hq2).
    unfold rt2.
    rewrite (node_put_put q (started t_start c0) (ended t_end c') rt1 _ Hq1).
    unfold q. rewrite (node_put_snoc p name (ended t_end c') rt1 n1 c0 Hn1 Hc0).
    apply Hput. }
  exists n4, (ended t_end c'). split.
  - unfold hierarchical_timer.
    eapply bind_ok; [exact Hpush|]. cbv beta.
    eapply bind_ok; [exact Hstart|]. cbv beta.
    eapply bind_ok; [exact Hrun_i|]. cbv beta.
    eapply bind_ok; [exact Hend|]. cbv beta.
    eapply bind_ok; [apply pop_snoc|]. cbv beta.
    unfold ret. now rewrite Hrt4.
  - split; [|reflexivity]. unfold n4. simpl. apply get_set_same.
Qed.

Lemma nested_ops_of (ops : list timer_op) :
  nested ops <-> exists rs, ops = ops_of rs.
Proof.
  split.
  - induction 1 as [|name t1 t2 inner rest _ [ri ->] _ [rr ->]].
    + now exists Done.
    + now exists (Region name t1 t2 ri rr).
  - intros [rs ->]. induction rs as [|name t1 t2 inner IHi rest IHr].
    + constructor.
    + now apply nested_region.
Qed.

(** C6: for every properly nested sequence of calls (push then start on
    entry, end then pop on exit) whose start readings are not the sentinel,
    run on a fresh stack: every call returns, the stack has length 1 again
    at the end, and the reference to the root is the first element of the
    stack before the first call and after each call. *)
Theorem nested_regions_restore_stack (rs : regions) (now0 : Q) :
  start_readings_ok rs = true ->
  exists ts',
    run_ops (ops_of rs) (TimerStack_init now0) = (Ok tt, ts')
    /\ List.length (states_of (ops_of rs) (TimerStack_init now0))
       = List.length (ops_of rs)
    /\ stack ts' = [root_ref]
    /\ List.length (stack ts') = 1%nat
    /\ Forall (fun s => hd_error (stack s) = Some root_ref
                        /\ node_at root_ref (root s) = Some (root s))
         (TimerStack_init now0 :: states_of (ops_of rs) (TimerStack_init now0)).
Proof.
  intros Hok.
  destruct (regions_run rs Hok (root (TimerStack_init now0)) [] root_ref
              (root (TimerStack_init now0)) eq_refl eq_refl)
    as [n' [[H1 [H2 H3]] _]].
  eexists. split; [exact H1|]. repeat split; auto.
  constructor; [split; reflexivity|].
  eapply Forall_impl; [|exact H3].
  intros s [ext Hs]. rewrite Hs. split; reflexivity.
Qed.

Lemma nested_regions_restore_stack_witness :
  exists ts',
    run_ops (ops_of (Region "a" 2 5 (Region "b" 3 4 Done Done)
                       (Region "a" 6 7 Done Done)))
      (TimerStack_init 1) = (Ok tt, ts')
    /\ List.length
         (states_of (ops_of (Region "a" 2 5 (Region "b" 3 4 Done Done)
                               (Region "a" 6 7 Done Done)))
            (TimerStack_init 1))
       = List.length (ops_of (Region "a" 2 5 (Region "b" 3 4 Done Done)
                                (Region "a" 6 7 Done Done)))
    /\ stack ts' = [root_ref]
    /\ List.length (stack ts') = 1%nat
    /\ Forall (fun s => hd_error (stack s) = Some root_ref
                        /\ node_at root_ref (root s) = Some (root s))
         (TimerStack_init 1
            :: states_of (ops_of (Region "a" 2 5 (Region "b" 3 4 Done Done)
                                    (Region "a" 6 7 Done Done)))
                 (TimerStack_init 1)).
Proof.
  apply (nested_regions_restore_stack
           (Region "a" 2 5 (Region "b" 3 4 Done Done) (Region "a" 6 7 Done Done)) 1).
  reflexivity.
Defined.

(** ** References stay valid

    Nodes are never removed from the tree, so a reference that denotes a
    node keeps denoting one, and [DanglingRef] is never raised by the calls
    on a stack built by [TimerStack_init]. *)

Lemma valid_node_put (r : ref) (n' : TimerNode) :
  forall (rt n : TimerNode),
    node_at r rt = Some n ->
    (forall k c, Dict.get k (children n) = Some c ->
                 Dict.get k (children n') = Some c) ->
    forall r2, valid r2 rt = true -> valid r2 (node_put r n' rt) = true.
Proof.
  unfold valid.
  induction r as [|k r IH]; intros rt n Hn Hkeep r2 Hv; simpl in *.
  - inversion Hn; subst n. destruct r2 as [|k2 r2]; simpl in *; auto.
    destruct (Dict.get k2 (children rt)) as [c|] eqn:E; [|discriminate].
    now rewrite (Hkeep _ _ E).
  - destruct (Dict.get k (children rt)) as [c|] eqn:E; [|discriminate].
    destruct r2 as [|k2 r2]; simpl in *; auto.
    destruct (String.eqb k2 k) eqn:Ek.
    + apply String.eqb_eq in Ek. subst k2. rewrite E in Hv.
      rewrite get_set_same. now apply (IH c n).
    + rewrite get_set_other; auto.
      intros ->. now rewrite String.eqb_refl in Ek.
Qed.

Lemma get_app_some {V} (k : string) (v : V) (d e : list (string * V)) :
  Dict.get k d = Some v -> Dict.get k (d ++ e) = Some v.
Proof.
  induction d as [|[k' v'] d IH]; simpl; [discriminate|].
  destruct (String.eqb k k'); auto.
Qed.

Lemma top_in {A} (l : list A) (a : A) : top l = Some a -> In a l.
Proof. intros H. destruct (top_some _ _ H) as [l' ->]. apply in_or_app. simpl. auto. Qed.

Lemma start_children (now : Q) (n n' : TimerNode) (res : result unit) :
  _start now n = (res, n') -> children n' = children n.
Proof.
  destruct (_is_running n) eqn:E.
  - rewrite (start_running _ _ E). now inversion 1.
  - rewrite (start_idle _ _ E). now inversion 1.
Qed.

Lemma end_children (now : Q) (n n' : TimerNode) (res : result unit) :
  _end now n = (res, n') -> children n' = children n.
Proof.
  destruct (_is_running n) eqn:E.
  - rewrite (end_running _ _ E). now inversion 1.
  - rewrite (end_idle _ _ E). now inversion 1.
Qed.

Lemma wf_init (now : Q) : wf (TimerStack_init now) = true.
Proof. reflexivity. Qed.

Lemma wf_on_top (m : Py TimerNode unit) (ts : TimerStack) :
  (forall n res n', m n = (res, n') ->
                    children n' = children n /\ res <> Raise DanglingRef) ->
  wf ts = true ->
  wf (snd (on_top m ts)) = true /\ fst (on_top m ts) <> Raise DanglingRef.
Proof.
  intros Hm Hwf. unfold on_top, bind, get. simpl.
  destruct (top (stack ts)) as [r|] eqn:Ht; [|split; [exact Hwf|discriminate]].
  pose proof (proj1 (forallb_forall _ _) Hwf r (top_in _ _ Ht)) as Hr.
  unfold valid in Hr. unfold with_node.
  destruct (node_at r (root ts)) as [n|] eqn:Hn; [|discriminate].
  destruct (m n) as [res n'] eqn:Hmn. simpl.
  destruct (Hm _ _ _ Hmn) as [Hch Hres]. split; [|exact Hres].
  unfold wf. simpl. apply forallb_forall. intros r2 Hin.
  apply (valid_node_put r n' (root ts) n Hn).
  - intros k c. now rewrite Hch.
  - exact (proj1 (forallb_forall _ _) Hwf r2 Hin).
Qed.

Lemma wf_push (name : string) (ts : TimerStack) :
  wf ts = true ->
  wf (snd (push name ts)) = true /\ fst (push name ts) <> Raise DanglingRef.
Proof.
  intros Hwf.
  destruct (top (stack ts)) as [cur|] eqn:Ht.
  - pose proof (proj1 (forallb_forall _ _) Hwf cur (top_in _ _ Ht)) as Hr.
    unfold valid in Hr.
    destruct (node_at cur (root ts)) as [current|] eqn:Hn; [|discriminate].
    destruct (Dict.get name (children current)) as [c|] eqn:Hg.
    + rewrite (push_present _ _ _ _ _ Ht Hn Hg). simpl. split; [|discriminate].
      unfold wf. simpl. rewrite forallb_app. fold (wf ts). rewrite Hwf. simpl.
      unfold valid. now rewrite node_at_snoc, Hn, Hg.
    + rewrite (push_absent _ _ _ _ Ht Hn Hg). simpl. split; [|discriminate].
      unfold wf. simpl. rewrite forallb_app. apply andb_true_intro. split.
      * apply forallb_forall. intros r2 Hin.
        apply (valid_node_put cur _ (root ts) current Hn).
        -- intros k c0 Hk. simpl. now apply get_app_some.
        -- exact (proj1 (forallb_forall _ _) Hwf r2 Hin).
      * simpl. unfold valid.
        rewrite node_at_snoc, (node_at_put _ _ _ _ Hn). simpl.
        rewrite <- (set_absent _ TimerNode_init _ Hg), get_set_same. reflexivity.
  - unfold push, bind, get. simpl. rewrite Ht. simpl. split; [exact Hwf|discriminate].
Qed.

Lemma forallb_removelast {A} (f : A -> bool) (l : list A) :
  forallb f l = true -> forallb f (removelast l) = true.
Proof.
  induction l as [|a l IH]; simpl; auto.
  intros H. apply andb_prop in H. destruct H as [H1 H2].
  destruct l; simpl in *; auto. rewrite H1. now apply IH.
Qed.

Lemma wf_pop (ts : TimerStack) :
  wf ts = true -> wf (snd (pop ts)) = true /\ fst (pop ts) <> Raise DanglingRef.
Proof.
  intros Hwf. unfold pop, bind, get, put. simpl.
  destruct (stack ts) eqn:E; simpl; (split; [|discriminate]); auto.
  unfold wf in *. simpl. rewrite E in Hwf. now apply forallb_removelast in Hwf.
Qed.

Lemma wf_step (o : timer_op) (ts : TimerStack) :
  wf ts = true ->
  wf (snd (step o ts)) = true /\ fst (step o ts) <> Raise DanglingRef.
Proof.
  intros Hwf. destruct o as [name|now|now|]; simpl.
  - destruct (wf_push name ts Hwf) as [H1 H2]. unfold bind.
    destruct (push name ts) as [[r|e] ts']; simpl in *;
      (split; [assumption|]); [discriminate|].
    intros Heq. inversion Heq. subst e. now apply H2.
  - apply wf_on_top; auto. intros n res n' H. split.
    + eapply start_children; eauto.
    + intros ->. destruct (_is_running n) eqn:E;
        [rewrite (start_running _ _ E) in H|rewrite (start_idle _ _ E) in H];
        discriminate.
  - apply wf_on_top; auto. intros n res n' H. split.
    + eapply end_children; eauto.
    + intros ->. destruct (_is_running n) eqn:E;
        [rewrite (end_running _ _ E) in H|rewrite (end_idle _ _ E) in H];
        discriminate.
  - now apply wf_pop.
Qed.

(** Whatever calls are made on a fresh stack, in whatever order, none of
    them finds a reference that denotes no node. *)
Lemma no_dangling_ref (ops : list timer_op) (ts : TimerStack) :
  wf ts = true ->
  wf (snd (run_ops ops ts)) = true /\ fst (run_ops ops ts) <> Raise DanglingRef.
Proof.
  revert ts. induction ops as [|o ops IH]; intros ts Hwf; simpl.
  - split; [exact Hwf|discriminate].
  - destruct (wf_step o ts Hwf) as [H1 H2]. unfold bind.
    destruct (step o ts) as [[[]|e] ts']; simpl in *; auto.
Qed.

(** ** The examples of the specification *)

(** Parent total 10.0 with children totals 3.0 and 4.0: self is 3.0. *)
Example self_time_3 :
  option_map (Dict.get "self")
    (match timing_tree {| children := [("x", leaf 3); ("y", leaf 4)];
                          _start_time := -1; total := 10; count := 1 |}
     with Ok res => Some res | Raise _ => None end)
  = Some (Some (PyFloat 3)).
Proof. reflexivity. Qed.

(** Children totals 6.0 and 7.0: self is clamped to 0.0. *)
Example self_time_clamped :
  option_map (Dict.get "self")
    (match timing_tree {| children := [("x", leaf 6); ("y", leaf 7)];
                          _start_time := -1; total := 10; count := 1 |}
     with Ok res => Some res | Raise _ => None end)
  = Some (Some (PyFloat 0)).
Proof. reflexivity. Qed.

(** Entering ["update"] three times under the root: one child, count 3. *)
Example update_three_times :
  let enter t := hierarchical_timer "update" t (t + 1) (fun _ => ret tt) in
  let out := (enter 2 ;;; enter 4 ;;; enter 6) (TimerStack_init 1) in
  fst out = Ok tt
  /\ map fst (children (root (snd out))) = ["update"]
  /\ map (fun kv => count (snd kv)) (children (root (snd out))) = [3%Z]
  /\ stack (snd out) = [root_ref].
Proof. repeat split. Qed.

(** A row with values 0.123456, 1.0, 0.5, 200, 3.14159. *)
Example row_serialization :
  rows (snd (_add_row 1
               {| path := "m.csv"; brain_name := "BrainA"; rows := [];
                  time_start_experience_collection := None;
                  time_training_start := 0;
                  last_buffer_length := Some 200%Z;
                  last_mean_return := Some (314159 # 100000);
                  time_policy_update_start := Some 1;
                  delta_last_experience_collection := Some (1 # 2);
                  delta_policy_update := PyFloat (123456 # 1000000) |}))
  = [[PyStr "BrainA"; PyStr "0.123"; PyStr "1.000"; PyStr "0.500"; PyInt 200;
      PyStr "3.142"]].
Proof. reflexivity. Qed.

(** Two experience collections without a row in between add up. *)
Example experience_collection_twice :
  delta_last_experience_collection
    (after_calls [StartExperienceCollection 10; EndExperienceCollection 12;
                  StartExperienceCollection 20; EndExperienceCollection 23]
       (TrainerMetrics_init "m.csv" "BrainA" 1))
  = Some (12 - 10 + (23 - 20)).
Proof. reflexivity. Qed.

(** A policy update started at 101 and ended twice: the first end records
    103 - 101 and emits a row; the second, with a step delta in between,
    records 110 - 101 from the stale start and emits a second row. *)
Example policy_update_ended_twice :
  let m := after_calls [AddDeltaStep 1; StartPolicyUpdate 350 (3 # 10) 101;
                        EndPolicyUpdate 103 103; AddDeltaStep 1;
                        EndPolicyUpdate 110 110]
             (TrainerMetrics_init "m.csv" "BrainA" 100) in
  rows m
  = [[PyStr "BrainA"; PyStr "2.000"; PyStr "3.000"; PyStr "1.000"; PyInt 350;
      PyStr "0.300"];
     [PyStr "BrainA"; PyStr "9.000"; PyStr "10.000"; PyStr "1.000"; PyInt 350;
      PyStr "0.300"]].
Proof. reflexivity. Qed.

(** [str.replace] and [format] on the values the code gives them. *)
Example str_replace_extension :
  str_replace "csv" "hierarchy.json" "a/b.csv" = "a/b.hierarchy.json".
Proof. reflexivity. Qed.

Example str_replace_no_overlap : str_replace "aa" "b" "aaaaa" = "bba".
Proof. reflexivity. Qed.

Example format_3f_negative : format_3f (-12345678 # 1000) = "-12345.678".
Proof. reflexivity. Qed.

(** * Further properties of the recorder *)

(** ** Experience collection *)

Lemma set_time_start_same (m : TrainerMetrics) :
  set_time_start_experience_collection (time_start_experience_collection m) m = m.
Proof. now destruct m. Qed.

(** X1: [start_experience_collection_timer] is idempotent: a second start,
    at whatever reading, leaves the recorder as the first start left it. *)
Theorem start_experience_collection_idempotent (t1 t2 : Q) (m : TrainerMetrics) :
  start_experience_collection_timer t2
    (snd (start_experience_collection_timer t1 m))
  = (Ok tt, snd (start_experience_collection_timer t1 m)).
Proof.
  unfold start_experience_collection_timer, bind, get, modify, ret.
  destruct (time_start_experience_collection m) eqn:E; cbn; now rewrite ?E.
Qed.



(** X3: ending a collection that was never started changes nothing at all. *)
Theorem end_experience_collection_without_start (now : Q) (m : TrainerMetrics) :
  time_start_experience_collection m = None ->
  end_experience_collection_timer now m = (Ok tt, m).
Proof.
  intros Hs. unfold end_experience_collection_timer, bind, get, modify, ret.
  rewrite Hs. cbn. rewrite <- Hs at 1. now rewrite set_time_start_same.
Qed.

Lemma end_experience_collection_without_start_witness :
  end_experience_collection_timer 5 (TrainerMetrics_init "m.csv" "BrainA" 1)
  = (Ok tt, TrainerMetrics_init "m.csv" "BrainA" 1).
Proof.
  apply (end_experience_collection_without_start 5
           (TrainerMetrics_init "m.csv" "BrainA" 1)).
  reflexivity.
Defined.

(** X4: [add_delta_step delta] always leaves an accumulated time, and it is
    the time accumulated before (zero when there was none) plus [delta];
    this also holds when the time accumulated before is [0.0], where the
    code assigns instead of adding. *)
Theorem add_delta_step_accumulates (delta : Q) (m : TrainerMetrics) :
  fst (add_delta_step delta m) = Ok tt
  /\ delta_last_experience_collection (snd (add_delta_step delta m)) <> None
  /\ accumulated (snd (add_delta_step delta m)) == accumulated m + delta
  /\ rows (snd (add_delta_step delta m)) = rows m.
Proof.
  unfold add_delta_step, accumulated, bind, get, modify, truthy.
  destruct (delta_last_experience_collection m) as [d|] eqn:E; cbn.
  - destruct (Qeq_bool d 0) eqn:Ed; cbn.
    + repeat split; try discriminate.
      apply Qeq_bool_eq in Ed. rewrite Ed. now rewrite Qplus_0_l.
    + repeat split; try discriminate; try reflexivity.
  - repeat split; try discriminate. now rewrite Qplus_0_l.
Qed.

(** ** Policy updates and rows *)

Lemma field_3f_duration (t_update : Q) (m : TrainerMetrics) :
  exists s, field_3f (policy_update_duration t_update m) = Ok s.
Proof.
  unfold policy_update_duration.
  destruct (time_policy_update_start m) as [start|];
    [destruct (truthy (Some start))|]; cbn [field_3f]; eauto.
Qed.

Lemma policy_update_message_ok (m : TrainerMetrics) (t d r : Q) (s : string) :
  field_3f (delta_policy_update m) = Ok s ->
  delta_last_experience_collection m = Some d ->
  last_mean_return m = Some r ->
  exists msg, policy_update_message m t = Ok msg.
Proof.
  intros Hs Hd Hr. unfold policy_update_message.
  rewrite Hs, Hd, Hr. cbn [field_str field_3f of_float of_int].
  destruct (last_buffer_length m); cbn [field_str of_int]; eauto.
Qed.

Lemma policy_update_message_no_delta (m : TrainerMetrics) (t : Q) :
  delta_last_experience_collection m = None ->
  policy_update_message m t = Raise TypeError.
Proof.
  intros Hd. unfold policy_update_message. rewrite Hd.
  destruct (delta_policy_update m); cbn; auto.
Qed.

(** What [end_policy_update] does, with the formatting of the log message
    resolved into its outcome. *)
Lemma end_policy_update_eq (t_update t_now : Q) (m : TrainerMetrics) :
  end_policy_update t_update t_now m =
    let m1 := set_delta_policy_update (policy_update_duration t_update m) m in
    if can_log m
    then (Ok tt,
          set_rows (rows m ++ [policy_update_row t_update t_now m])
            (set_delta_last_experience_collection None m1))
    else (Raise TypeError, m1).
Proof.
  assert (E : end_policy_update t_update t_now m =
              let m1 := set_delta_policy_update (policy_update_duration t_update m) m in
              bind (lift (policy_update_message m1 (t_now - time_training_start m1)))
                (fun _ => _add_row (t_now - time_training_start m1)) m1).
  { unfold end_policy_update, policy_update_duration, bind, get, modify.
    destruct (time_policy_update_start m) as [start|];
      [destruct (truthy (Some start))|]; reflexivity. }
  rewrite E. clear E. cbv zeta.
  set (m1 := set_delta_policy_update (policy_update_duration t_update m) m).
  unfold can_log, bind, lift.
  destruct (delta_last_experience_collection m) as [d|] eqn:Hd.
  - destruct (last_mean_return m) as [r|] eqn:Hr.
    + destruct (field_3f_duration t_update m) as [s Hs].
      destruct (policy_update_message_ok m1 (t_now - time_training_start m1) d r s
                  Hs Hd Hr) as [msg ->].
      unfold _add_row, bind, get, modify, policy_update_row. cbn.
      now rewrite Hd, Hr.
    + now rewrite (policy_update_message_no_mean_return m1 _ Hr).
  - now rewrite (policy_update_message_no_delta m1 _ Hd).
Qed.

(** X5: [end_policy_update] returns normally exactly when an
    experience-collection time and a mean return are on record.  Then it
    appends one row of six cells and resets the experience-collection time;
    otherwise it raises [TypeError] and leaves rows and experience-collection
    time as they were.  In both cases the duration has been stored. *)
Theorem end_policy_update_outcome (t_update t_now : Q) (m : TrainerMetrics) :
  let out := end_policy_update t_update t_now m in
  delta_policy_update (snd out) = policy_update_duration t_update m
  /\ if can_log m
     then fst out = Ok tt
          /\ rows (snd out) = rows m ++ [policy_update_row t_update t_now m]
          /\ List.length (policy_update_row t_update t_now m) = 6%nat
          /\ delta_last_experience_collection (snd out) = None
     else fst out = Raise TypeError
          /\ rows (snd out) = rows m
          /\ delta_last_experience_collection (snd out)
             = delta_last_experience_collection m.
Proof.
  cbv zeta. rewrite end_policy_update_eq. cbv zeta.
  destruct (can_log m); repeat split.
Qed.

Lemma can_log_after_end (t_update t_now : Q) (m : TrainerMetrics) :
  can_log (snd (end_policy_update t_update t_now m)) = false.
Proof.
  rewrite end_policy_update_eq. cbv zeta.
  destruct (can_log m) eqn:E; [reflexivity|].
  unfold can_log in *. cbn. exact E.
Qed.

(** X6: of two [end_policy_update] calls in a row the second always raises
    [TypeError] and adds no row, whether the first returned or raised: a
    returning call resets the experience-collection time the message
    needs. *)
Theorem end_policy_update_twice (t1 t1' t2 t2' : Q) (m : TrainerMetrics) :
  let m1 := snd (end_policy_update t1 t1' m) in
  fst (end_policy_update t2 t2' m1) = Raise TypeError
  /\ rows (snd (end_policy_update t2 t2' m1)) = rows m1.
Proof.
  cbv zeta. rewrite (end_policy_update_eq t2 t2'). cbv zeta.
  rewrite can_log_after_end. split; reflexivity.
Qed.

Lemma row_cell_not_float (c : pyval) : is_float (row_cell c) = false.
Proof. now destruct c. Qed.

Lemma policy_update_row_ok (t_update t_now : Q) (m : TrainerMetrics) :
  row_ok (brain_name m) (policy_update_row t_update t_now m) = true.
Proof.
  unfold row_ok, policy_update_row. cbn [app map List.length FIELD_NAMES Nat.eqb].
  rewrite String.eqb_refl. cbn [forallb is_float negb andb].
  now rewrite !row_cell_not_float.
Qed.

(** The effect of one call on the rows and on the brain name. *)
Lemma call_rows (c : metrics_call) (m : TrainerMetrics) :
  brain_name (snd (call c m)) = brain_name m
  /\ (rows (snd (call c m)) = rows m
      \/ exists t_update t_now,
           c = EndPolicyUpdate t_update t_now
           /\ rows (snd (call c m)) = rows m ++ [policy_update_row t_update t_now m]).
Proof.
  destruct c as [now|now|delta|n r now|t_update t_now].
  - run_call.
  - run_call.
  - run_call.
  - split; [reflexivity|left; reflexivity].
  - unfold call. rewrite end_policy_update_eq. cbv zeta.
    destruct (can_log m); split; try reflexivity.
    + right. exists t_update, t_now. split; reflexivity.
    + left. reflexivity.
Qed.

Lemma after_calls_cons (c : metrics_call) (cs : list metrics_call) (m : TrainerMetrics) :
  after_calls (c :: cs) m = after_calls cs (snd (call c m)).
Proof. reflexivity. Qed.

Lemma after_calls_rows_ok (b : string) (cs : list metrics_call) :
  forall m,
    brain_name m = b ->
    forallb (row_ok b) (rows m) = true ->
    brain_name (after_calls cs m) = b
    /\ forallb (row_ok b) (rows (after_calls cs m)) = true.
Proof.
  induction cs as [|c cs IH]; intros m Hb Hrows; [split; assumption|].
  rewrite after_calls_cons.
  destruct (call_rows c m) as [Hn Hr].
  apply IH; [congruence|].
  destruct Hr as [->|[t_update [t_now [_ ->]]]]; [exact Hrows|].
  rewrite forallb_app, Hrows. cbn [forallb andb].
  rewrite <- Hb. now rewrite policy_update_row_ok.
Qed.

(** X7: whatever calls are made on a recorder, in whatever order and
    whether or not some of them raise, every row it holds has as many cells
    as the header [FIELD_NAMES], starts with the brain name, and contains no
    raw float (floats are stored formatted). *)
Theorem rows_well_formed (p b : string) (t0 : Q) (cs : list metrics_call) :
  forallb (row_ok b) (rows (after_calls cs (TrainerMetrics_init p b t0))) = true
  /\ brain_name (after_calls cs (TrainerMetrics_init p b t0)) = b.
Proof.
  destruct (after_calls_rows_ok b cs (TrainerMetrics_init p b t0) eq_refl eq_refl).
  split; assumption.
Qed.

(** X8: rows are only ever appended: after any calls the rows held before
    are still there, in place, and at most one row was added per
    [end_policy_update]. *)
Theorem rows_only_grow (cs : list metrics_call) (m : TrainerMetrics) :
  exists added,
    rows (after_calls cs m) = rows m ++ added
    /\ (List.length added <= List.length (filter is_end_policy_update cs))%nat.
Proof.
  revert m. induction cs as [|c cs IH]; intros m.
  - exists []. cbn. now rewrite app_nil_r.
  - rewrite after_calls_cons.
    destruct (IH (snd (call c m))) as [added [Hr Hl]].
    destruct (call_rows c m) as [_ [Hc|[t_update [t_now [-> Hc]]]]].
    + exists added. rewrite Hr, Hc. split; [reflexivity|].
      cbn [filter]. destruct (is_end_policy_update c); cbn [List.length]; lia.
    + exists (policy_update_row t_update t_now m :: added).
      rewrite Hr, Hc, <- app_assoc. split; [reflexivity|].
      cbn [filter is_end_policy_update List.length]. lia.
Qed.

(** ** The files of [write_training_metrics] *)

Lemma replace_from_no_match (old new a b : string) :
  no_match_in old a b = true ->
  replace_from old new 0 (a ++ b) = (a ++ replace_from old new 0 b)%string.
Proof.
  induction a as [|c a IH]; cbn [no_match_in String.append]; [reflexivity|].
  intros H. apply andb_prop in H. destruct H as [H1 H2].
  apply negb_true_iff in H1.
  cbn [replace_from]. cbn [String.append] in H1. rewrite H1.
  now rewrite (IH H2).
Qed.

Lemma append_empty_r (s : string) : (s ++ "")%string = s.
Proof. induction s as [|c s IH]; cbn; [reflexivity|now rewrite IH]. Qed.

Lemma append_cancel_l (a x y : string) : (a ++ x)%string = (a ++ y)%string -> x = y.
Proof. induction a as [|c a IH]; cbn; [auto|]. intros H. inversion H. auto. Qed.

(** X9: for a row file [base.csv] in whose name [csv] occurs nowhere before
    the extension, the tree file is [base.hierarchy.json], a different
    file. *)
Theorem json_path_sibling (base : string) (m : TrainerMetrics) :
  path m = (base ++ ".csv")%string ->
  no_match_in "csv" base ".csv" = true ->
  json_path m = (base ++ ".hierarchy.json")%string
  /\ json_path m <> path m.
Proof.
  intros Hp Hn. unfold json_path, str_replace. rewrite Hp.
  rewrite (replace_from_no_match "csv" "hierarchy.json" base ".csv" Hn).
  split; [reflexivity|].
  intros H. apply append_cancel_l in H. discriminate.
Qed.

Lemma json_path_sibling_witness :
  json_path (TrainerMetrics_init "runs/ppo/BrainA.csv" "BrainA" 1)
  = ("runs/ppo/BrainA" ++ ".hierarchy.json")%string
  /\ json_path (TrainerMetrics_init "runs/ppo/BrainA.csv" "BrainA" 1)
     <> path (TrainerMetrics_init "runs/ppo/BrainA.csv" "BrainA" 1).
Proof.
  apply (json_path_sibling "runs/ppo/BrainA"
           (TrainerMetrics_init "runs/ppo/BrainA.csv" "BrainA" 1));
    reflexivity.
Defined.

(** X10: when [csv] occurs nowhere in the path of the row file, the tree
    file has the very same path. *)
Theorem json_path_without_csv (m : TrainerMetrics) :
  no_match_in "csv" (path m) "" = true ->
  json_path m = path m.
Proof.
  intros Hn. unfold json_path, str_replace.
  rewrite <- (append_empty_r (path m)) at 1.
  rewrite (replace_from_no_match "csv" "hierarchy.json" (path m) "" Hn).
  cbn [replace_from]. apply append_empty_r.
Qed.

Lemma json_path_without_csv_witness :
  json_path (TrainerMetrics_init "runs/BrainA.tsv" "BrainA" 1)
  = path (TrainerMetrics_init "runs/BrainA.tsv" "BrainA" 1).
Proof.
  apply (json_path_without_csv (TrainerMetrics_init "runs/BrainA.tsv" "BrainA" 1)).
  reflexivity.
Defined.

(** [write_training_metrics] fails at its first [open] and does nothing. *)
Lemma write_training_metrics_no_row_file (now : Q) (m : TrainerMetrics) (w : World) :
  openable w (path m) = false ->
  write_training_metrics now m w = (Raise (OSError (path m)), w).
Proof.
  intros Ho. unfold write_training_metrics, open_for_writing, bind, get, raise.
  now rewrite Ho.
Qed.

(** [write_training_metrics] fails at its second [open]: the row file is
    written, the timer stack is not reached. *)
Lemma write_training_metrics_no_tree_file (now : Q) (m : TrainerMetrics) (w : World) :
  openable w (path m) = true ->
  openable w (json_path m) = false ->
  write_training_metrics now m w =
    (Raise (OSError (json_path m)),
     {| files :=
          Dict.set (path m) (CsvFile (map PyStr FIELD_NAMES :: rows m))
            (Dict.set (path m) Opened (files w));
        openable := openable w;
        _global_timer_stack := _global_timer_stack w |}).
Proof.
  intros Ho Hj.
  unfold write_training_metrics, open_for_writing, write_file, bind, get, put,
    modify, raise.
  rewrite Ho. cbn [openable]. now rewrite Hj.
Qed.

(** The world after [write_training_metrics] when both files can be opened
    and the root timer is running. *)
Lemma write_training_metrics_running (now : Q) (m : TrainerMetrics) (w : World)
    (tree : pydict) :
  openable w (path m) = true ->
  openable w (json_path m) = true ->
  _is_running (root (_global_timer_stack w)) = true ->
  timing_tree (ended now (root (_global_timer_stack w))) = Ok tree ->
  write_training_metrics now m w =
    (Ok tt,
     {| files :=
          Dict.set (json_path m) (JsonFile tree)
            (Dict.set (json_path m) Opened
               (Dict.set (path m) (CsvFile (map PyStr FIELD_NAMES :: rows m))
                  (Dict.set (path m) Opened (files w))));
        openable := openable w;
        _global_timer_stack :=
          {| root := ended now (root (_global_timer_stack w));
             stack := stack (_global_timer_stack w) |} |}).
Proof.
  intros Ho Hj Hrun Htree.
  unfold write_training_metrics, open_for_writing, write_file,
    on_global_timer_stack, bind, get, put, modify.
  rewrite Ho. cbn [openable]. rewrite Hj.
  cbn [files _global_timer_stack openable].
  rewrite (get_timer_tree_running now _ Hrun), Htree. reflexivity.
Qed.

(** The world after [write_training_metrics] when both files can be opened
    and the root timer has been ended. *)
Lemma write_training_metrics_idle (now : Q) (m : TrainerMetrics) (w : World) :
  openable w (path m) = true ->
  openable w (json_path m) = true ->
  _is_running (root (_global_timer_stack w)) = false ->
  write_training_metrics now m w =
    (Raise (AssertionError "calling _end on a stopped timer"),
     {| files :=
          Dict.set (json_path m) Opened
            (Dict.set (path m) (CsvFile (map PyStr FIELD_NAMES :: rows m))
               (Dict.set (path m) Opened (files w)));
        openable := openable w;
        _global_timer_stack := _global_timer_stack w |}).
Proof.
  intros Ho Hj Hrun. destruct w as [fs op [rt st]].
  unfold write_training_metrics, open_for_writing, write_file,
    on_global_timer_stack, bind, get, put, modify.
  cbn [files _global_timer_stack root openable] in *.
  rewrite Ho. cbn [openable]. rewrite Hj.
  cbn [files _global_timer_stack openable].
  rewrite (get_timer_tree_idle now rt st Hrun). reflexivity.
Qed.

Lemma eqb_neq (a b : string) : String.eqb a b = false -> b <> a.
Proof. intros H ->. now rewrite String.eqb_refl in H. Qed.

(** X11: [write_training_metrics] with the root timer running.  If the row
    file cannot be opened the call raises at once and nothing changes.  If
    the row file can be opened but the tree file cannot, the call raises
    after the row file has been written (header, then the rows in order)
    and the timer stack is not touched: the root is still running.  If both
    can be opened the call returns normally; the tree file holds the timing
    tree taken with the root ended at [now]; the row file holds the header
    followed by the rows in order, unless the tree file has the same path,
    in which case it holds the tree and the rows are not on file; the root
    timer is left ended.  In no case is any other file touched. *)
Theorem write_training_metrics_files (now : Q) (m : TrainerMetrics) (w : World) :
  _is_running (root (_global_timer_stack w)) = true ->
  let out := write_training_metrics now m w in
  (forall f, f <> path m -> f <> json_path m ->
             Dict.get f (files (snd out)) = Dict.get f (files w))
  /\ if negb (openable w (path m))
     then out = (Raise (OSError (path m)), w)
     else if negb (openable w (json_path m))
          then fst out = Raise (OSError (json_path m))
               /\ Dict.get (path m) (files (snd out))
                  = Some (CsvFile (map PyStr FIELD_NAMES :: rows m))
               /\ _global_timer_stack (snd out) = _global_timer_stack w
          else exists tree,
              fst out = Ok tt
              /\ timing_tree (ended now (root (_global_timer_stack w))) = Ok tree
              /\ Dict.get (json_path m) (files (snd out)) = Some (JsonFile tree)
              /\ Dict.get (path m) (files (snd out))
                 = Some (if String.eqb (path m) (json_path m)
                         then JsonFile tree
                         else CsvFile (map PyStr FIELD_NAMES :: rows m))
              /\ _is_running (root (_global_timer_stack (snd out))) = false
              /\ stack (_global_timer_stack (snd out))
                 = stack (_global_timer_stack w).
Proof.
  intros Hrun. cbv zeta.
  destruct (openable w (path m)) eqn:Ho; cbn [negb].
  - destruct (openable w (json_path m)) eqn:Hj; cbn [negb].
    + destruct (timing_tree_record (ended now (root (_global_timer_stack w))))
        as [tree [Htree _]].
      rewrite (write_training_metrics_running now m w tree Ho Hj Hrun Htree).
      cbn [fst snd files _global_timer_stack root stack]. split.
      * intros f Hp Hjp. now rewrite !get_set_other by assumption.
      * exists tree. split; [reflexivity|]. split; [exact Htree|].
        split; [apply get_set_same|]. split; [|split; reflexivity].
        destruct (String.eqb (path m) (json_path m)) eqn:E.
        -- apply String.eqb_eq in E. rewrite E. apply get_set_same.
        -- apply eqb_neq in E.
           rewrite !get_set_other by (intros H; apply E; now rewrite H).
           apply get_set_same.
    + rewrite (write_training_metrics_no_tree_file now m w Ho Hj).
      cbn [fst snd files _global_timer_stack]. split.
      * intros f Hp Hjp. now rewrite !get_set_other by assumption.
      * split; [reflexivity|]. split; [apply get_set_same|reflexivity].
  - rewrite (write_training_metrics_no_row_file now m w Ho).
    split; [reflexivity|reflexivity].
Qed.

Lemma write_training_metrics_files_witness :
  let m := TrainerMetrics_init "run.csv" "BrainA" 1 in
  let w := {| files := [];
              openable := fun f => negb (String.eqb f "");
              _global_timer_stack := TimerStack_init 2 |} in
  let out := write_training_metrics 9 m w in
  (forall f, f <> path m -> f <> json_path m ->
             Dict.get f (files (snd out)) = Dict.get f (files w))
  /\ if negb (openable w (path m))
     then out = (Raise (OSError (path m)), w)
     else if negb (openable w (json_path m))
          then fst out = Raise (OSError (json_path m))
               /\ Dict.get (path m) (files (snd out))
                  = Some (CsvFile (map PyStr FIELD_NAMES :: rows m))
               /\ _global_timer_stack (snd out) = _global_timer_stack w
          else exists tree,
              fst out = Ok tt
              /\ timing_tree (ended 9 (root (_global_timer_stack w))) = Ok tree
              /\ Dict.get (json_path m) (files (snd out)) = Some (JsonFile tree)
              /\ Dict.get (path m) (files (snd out))
                 = Some (if String.eqb (path m) (json_path m)
                         then JsonFile tree
                         else CsvFile (map PyStr FIELD_NAMES :: rows m))
              /\ _is_running (root (_global_timer_stack (snd out))) = false
              /\ stack (_global_timer_stack (snd out))
                 = stack (_global_timer_stack w).
Proof.
  apply (write_training_metrics_files 9 (TrainerMetrics_init "run.csv" "BrainA" 1)
           {| files := [];
              openable := fun f => negb (String.eqb f "");
              _global_timer_stack := TimerStack_init 2 |}).
  reflexivity.
Defined.

(** X12: [write_training_metrics] works once per timer stack.  After a call
    that returned (both of its files could be opened and the root timer was
    running) the root timer is ended, so a second call, of any recorder,
    never returns normally: it raises at an [open] if one of its files
    cannot be opened, and otherwise raises the assertion failure of [_end]
    when it takes the tree, after it has written its row file and truncated
    its tree file, which is left empty. *)
Theorem write_training_metrics_twice (now1 now2 : Q) (m1 m2 : TrainerMetrics)
    (w : World) :
  _is_running (root (_global_timer_stack w)) = true ->
  openable w (path m1) = true ->
  openable w (json_path m1) = true ->
  let w1 := snd (write_training_metrics now1 m1 w) in
  let out := write_training_metrics now2 m2 w1 in
  fst (write_training_metrics now1 m1 w) = Ok tt
  /\ fst out <> Ok tt
  /\ if negb (openable w (path m2))
     then out = (Raise (OSError (path m2)), w1)
     else if negb (openable w (json_path m2))
          then fst out = Raise (OSError (json_path m2))
          else fst out = Raise (AssertionError "calling _end on a stopped timer")
               /\ Dict.get (json_path m2) (files (snd out)) = Some Opened
               /\ Dict.get (path m2) (files (snd out))
                  = Some (if String.eqb (path m2) (json_path m2)
                          then Opened
                          else CsvFile (map PyStr FIELD_NAMES :: rows m2)).
Proof.
  intros Hrun Ho1 Hj1 w1 out.
  destruct (timing_tree_record (ended now1 (root (_global_timer_stack w))))
    as [tree [Htree _]].
  pose proof (write_training_metrics_running now1 m1 w tree Ho1 Hj1 Hrun Htree) as H1.
  assert (Hidle : _is_running (root (_global_timer_stack w1)) = false).
  { unfold w1. rewrite H1. reflexivity. }
  assert (Hop : openable w1 = openable w).
  { unfold w1. rewrite H1. reflexivity. }
  split; [now rewrite H1|].
  destruct (openable w (path m2)) eqn:Ho2; cbn [negb].
  - destruct (openable w (json_path m2)) eqn:Hj2; cbn [negb].
    + assert (Ho2' : openable w1 (path m2) = true) by now rewrite Hop.
      assert (Hj2' : openable w1 (json_path m2) = true) by now rewrite Hop.
      unfold out. rewrite (write_training_metrics_idle now2 m2 w1 Ho2' Hj2' Hidle).
      cbn [fst snd files]. split; [discriminate|].
      split; [reflexivity|]. split; [apply get_set_same|].
      destruct (String.eqb (path m2) (json_path m2)) eqn:E.
      * apply String.eqb_eq in E. rewrite E. apply get_set_same.
      * apply eqb_neq in E.
        rewrite get_set_other by (intros H; apply E; now rewrite H).
        apply get_set_same.
    + assert (Ho2' : openable w1 (path m2) = true) by now rewrite Hop.
      assert (Hj2' : openable w1 (json_path m2) = false) by now rewrite Hop.
      unfold out. rewrite (write_training_metrics_no_tree_file now2 m2 w1 Ho2' Hj2').
      cbn [fst]. split; [discriminate|reflexivity].
  - assert (Ho2' : openable w1 (path m2) = false) by now rewrite Hop.
    unfold out. rewrite (write_training_metrics_no_row_file now2 m2 w1 Ho2').
    cbn [fst]. split; [discriminate|reflexivity].
Qed.

Lemma write_training_metrics_twice_witness :
  let w := {| files := [];
              openable := fun f => negb (String.eqb f "");
              _global_timer_stack := TimerStack_init 2 |} in
  let m1 := TrainerMetrics_init "a.csv" "BrainA" 1 in
  let m2 := TrainerMetrics_init "b.csv" "BrainB" 1 in
  let w1 := snd (write_training_metrics 9 m1 w) in
  let out := write_training_metrics 10 m2 w1 in
  fst (write_training_metrics 9 m1 w) = Ok tt
  /\ fst out <> Ok tt
  /\ if negb (openable w (path m2))
     then out = (Raise (OSError (path m2)), w1)
     else if negb (openable w (json_path m2))
          then fst out = Raise (OSError (json_path m2))
          else fst out = Raise (AssertionError "calling _end on a stopped timer")
               /\ Dict.get (json_path m2) (files (snd out)) = Some Opened
               /\ Dict.get (path m2) (files (snd out))
                  = Some (if String.eqb (path m2) (json_path m2)
                          then Opened
                          else CsvFile (map PyStr FIELD_NAMES :: rows m2)).
Proof.
  apply (write_training_metrics_twice 9 10
           (TrainerMetrics_init "a.csv" "BrainA" 1)
           (TrainerMetrics_init "b.csv" "BrainB" 1)
           {| files := [];
              openable := fun f => negb (String.eqb f "");
              _global_timer_stack := TimerStack_init 2 |});
    reflexivity.
Defined.

(** The edge cases of the two opens, evaluated: an empty path
    cannot be opened and the call raises before anything is written; a row
    file below a directory [csv_runs] that exists is written, but its tree
    file lies in the directory [hierarchy.json_runs], which does not. *)
Example write_training_metrics_unopenable :
  let w := {| files := [];
              openable := fun f => String.prefix "csv_runs/" f;
              _global_timer_stack := TimerStack_init 2 |} in
  write_training_metrics 9 (TrainerMetrics_init "" "BrainA" 1) w
  = (Raise (OSError ""), w)
  /\ fst (write_training_metrics 9 (TrainerMetrics_init "csv_runs/brain.csv" "BrainA" 1) w)
     = Raise (OSError "hierarchy.json_runs/brain.hierarchy.json")
  /\ option_map _is_running
       (Some (root (_global_timer_stack
                      (snd (write_training_metrics 9
                              (TrainerMetrics_init "csv_runs/brain.csv" "BrainA" 1) w)))))
     = Some true.
Proof. repeat split. Qed.

(** * Further properties of the timer *)

(** X13: [get_timer_tree] returns exactly when the root timer is running;
    it then ends the root at [now], so the tree reports the root's total
    with the time since its start added, and leaves the stack as it was.
    Otherwise it raises the assertion failure of [_end] and changes nothing.
    Either way the root is not running afterwards, so a second snapshot
    raises. *)
Theorem get_timer_tree_once (now now' : Q) (ts : TimerStack) :
  (if _is_running (root ts)
   then exists tree,
       get_timer_tree now ts
       = (Ok tree, {| root := ended now (root ts); stack := stack ts |})
       /\ Dict.get "total" tree
          = Some (PyFloat (total (root ts) + (now - _start_time (root ts))))
       /\ Dict.get "count" tree = Some (PyInt (count (root ts) + 1))
   else get_timer_tree now ts
        = (Raise (AssertionError "calling _end on a stopped timer"), ts))
  /\ _is_running (root (snd (get_timer_tree now ts))) = false
  /\ fst (get_timer_tree now' (snd (get_timer_tree now ts)))
     = Raise (AssertionError "calling _end on a stopped timer").
Proof.
  destruct (_is_running (root ts)) eqn:E.
  - destruct (timing_tree_record (ended now (root ts))) as [tree [Htree Hrec]].
    rewrite (get_timer_tree_running now ts E), Htree. cbn [fst snd].
    split; [|split].
    + exists tree. split; [reflexivity|].
      unfold tree_record in Hrec.
      destruct (children (ended now (root ts))).
      * subst tree. split; reflexivity.
      * destruct Hrec as [recs [-> _]]. split; reflexivity.
    + reflexivity.
    + now rewrite get_timer_tree_idle.
  - destruct ts as [rt st]. cbn [root] in E.
    rewrite (get_timer_tree_idle now rt st E). cbn [fst snd root].
    split; [reflexivity|]. split; [exact E|].
    now rewrite get_timer_tree_idle.
Qed.

(** X14: on a node that is not running, [_start] at [t1] followed by [_end]
    at [t2] returns normally, adds [t2 - t1] to [total] and one to [count],
    and leaves the node not running with the same children; except when
    the reading [t1] is the sentinel [-1.0]: then [_start] leaves the node
    looking not running and [_end] raises. *)
Theorem start_end_round_trip (t1 t2 : Q) (n : TimerNode) :
  _is_running n = false ->
  (_start t1 ;;; _end t2) n =
    if Qeq_bool t1 (-1)
    then (Raise (AssertionError "calling _end on a stopped timer"), started t1 n)
    else (Ok tt, {| children := children n; _start_time := -1;
                    total := total n + (t2 - t1); count := (count n + 1)%Z |}).
Proof.
  intros H. unfold bind. rewrite (start_idle t1 n H).
  destruct (Qeq_bool t1 (-1)) eqn:E.
  - rewrite end_idle; [reflexivity|]. unfold _is_running. cbn. now rewrite E.
  - rewrite end_running; [reflexivity|]. unfold _is_running. cbn. now rewrite E.
Qed.

Lemma start_end_round_trip_witness :
  (_start 3 ;;; _end 5) TimerNode_init =
    if Qeq_bool 3 (-1)
    then (Raise (AssertionError "calling _end on a stopped timer"),
           started 3 TimerNode_init)
    else (Ok tt, {| children := children TimerNode_init; _start_time := -1;
                    total := total TimerNode_init + (5 - 3);
                    count := (count TimerNode_init + 1)%Z |}).
Proof. apply (start_end_round_trip 3 5 TimerNode_init). reflexivity. Defined.

(** X15: a push followed by a pop leaves the stack as it was.  The tree is
    unchanged when the child existed; otherwise the node at the top has
    gained the child, not running and with zero total and count.  Doing the
    same again changes nothing more. *)
Theorem push_pop_round_trip (name : string) (ts : TimerStack) (cur : ref)
    (current : TimerNode) :
  top (stack ts) = Some cur ->
  node_at cur (root ts) = Some current ->
  exists ts',
    (push name ;;; pop) ts = (Ok tt, ts')
    /\ stack ts' = stack ts
    /\ match Dict.get name (children current) with
       | Some _ => root ts' = root ts
       | None =>
           node_at cur (root ts')
           = Some (with_children (children current ++ [(name, TimerNode_init)])
                     current)
       end
    /\ (push name ;;; pop) ts' = (Ok tt, ts').
Proof.
  intros Ht Hn.
  destruct (Dict.get name (children current)) as [c|] eqn:Hg.
  - exists {| root := root ts; stack := stack ts |}.
    assert (E : forall ts0, top (stack ts0) = Some cur ->
                            root ts0 = root ts -> stack ts0 = stack ts ->
                (push name ;;; pop) ts0
                = (Ok tt, {| root := root ts; stack := stack ts |})).
    { intros ts0 Ht0 Hr0 Hs0. unfold bind.
      rewrite (push_present name ts0 cur current c Ht0); [|now rewrite Hr0|exact Hg].
      rewrite pop_snoc. now rewrite Hr0, Hs0. }
    repeat split; apply E; auto.
  - set (n1 := with_children (children current ++ [(name, TimerNode_init)]) current).
    exists {| root := node_put cur n1 (root ts); stack := stack ts |}.
    assert (Hn1 : node_at cur (node_put cur n1 (root ts)) = Some n1)
      by (eapply node_at_put; eauto).
    split; [|split; [reflexivity|split; [exact Hn1|]]].
    + unfold bind. rewrite (push_absent name ts cur current Ht Hn Hg).
      fold n1. now rewrite pop_snoc.
    + unfold bind.
      rewrite (push_present name
                 {| root := node_put cur n1 (root ts); stack := stack ts |}
                 cur n1 TimerNode_init Ht Hn1).
      * cbn [root stack]. now rewrite pop_snoc.
      * unfold n1. cbn [children with_children].
        rewrite <- (set_absent _ TimerNode_init _ Hg). apply get_set_same.
Qed.

Lemma push_pop_round_trip_witness :
  exists ts',
    (push "update" ;;; pop) (TimerStack_init 1) = (Ok tt, ts')
    /\ stack ts' = stack (TimerStack_init 1)
    /\ match Dict.get "update" (children (root (TimerStack_init 1))) with
       | Some _ => root ts' = root (TimerStack_init 1)
       | None =>
           node_at [] (root ts')
           = Some (with_children
                     (children (root (TimerStack_init 1))
                        ++ [("update", TimerNode_init)])
                     (root (TimerStack_init 1)))
       end
    /\ (push "update" ;;; pop) ts' = (Ok tt, ts').
Proof.
  apply (push_pop_round_trip "update" (TimerStack_init 1) []
           (root (TimerStack_init 1))); reflexivity.
Defined.

(** ** What a region adds to the tree *)

Lemma get_snoc_other {V} (k name : string) (v : V) (d : list (string * V)) :
  k <> name -> Dict.get k (d ++ [(name, v)]) = Dict.get k d.
Proof.
  intros Hne. induction d as [|[k' v'] d IH]; cbn.
  - destruct (String.eqb k name) eqn:E; [|reflexivity].
    apply String.eqb_eq in E. contradiction.
  - destruct (String.eqb k k'); auto.
Qed.

(** The child [name] of [n] as a push finds or creates it. *)
Lemma push_child (name : string) (rt : TimerNode) (ps : list ref) (p : ref)
    (n : TimerNode) :
  node_at p rt = Some n ->
  kids_idle n = true ->
  exists rt1 n1 c0,
    push name {| root := rt; stack := ps ++ [p] |}
    = (Ok (p ++ [name]), {| root := rt1; stack := (ps ++ [p]) ++ [p ++ [name]] |})
    /\ node_at p rt1 = Some n1
    /\ Dict.get name (children n1) = Some c0
    /\ idle_tree c0 = true
    /\ kids_idle n1 = true
    /\ (forall x, node_put p x rt1 = node_put p x rt)
    /\ (_start_time n1 = _start_time n /\ total n1 = total n /\ count n1 = count n)
    /\ c0 = match Dict.get name (children n) with
            | Some c => c
            | None => TimerNode_init
            end
    /\ (forall k, k <> name -> Dict.get k (children n1) = Dict.get k (children n)).
Proof.
  intros Hn Hk.
  assert (Ht : top (stack {| root := rt; stack := ps ++ [p] |}) = Some p)
    by apply top_snoc.
  destruct (Dict.get name (children n)) as [c|] eqn:Hg.
  - exists rt, n, c.
    rewrite (push_present name _ p n c Ht Hn Hg). cbn [root stack].
    repeat split; auto.
    exact (forallb_get idle_tree name c (children n) Hk Hg).
  - exists (node_put p (with_children (children n ++ [(name, TimerNode_init)]) n) rt),
      (with_children (children n ++ [(name, TimerNode_init)]) n), TimerNode_init.
    rewrite (push_absent name _ p n Ht Hn Hg). cbn [root stack].
    repeat split; auto.
    + eapply node_at_put; eauto.
    + cbn [children with_children].
      rewrite <- (set_absent _ TimerNode_init _ Hg). apply get_set_same.
    + unfold kids_idle. cbn [children with_children].
      rewrite forallb_app. fold (kids_idle n). now rewrite Hk.
    + intros x. eapply node_put_put; eauto.
    + intros k Hne. cbn [children with_children]. now apply get_snoc_other.
Qed.

(** The nesting argument once more, now also keeping track of the totals
    and counts of the node the regions are entered under. *)
Lemma regions_keep_fields (rs : regions) :
  start_readings_ok rs = true ->
  forall (rt : TimerNode) (ps : list ref) (p : ref) (n : TimerNode),
    node_at p rt = Some n ->
    kids_idle n = true ->
    exists n',
      run_ops (ops_of rs) {| root := rt; stack := ps ++ [p] |}
      = (Ok tt, {| root := node_put p n' rt; stack := ps ++ [p] |})
      /\ kids_idle n' = true
      /\ _start_time n' = _start_time n
      /\ total n' = total n
      /\ count n' = count n.
Proof.
  induction rs as [|name t1 t2 inner IHi rest IHr]; intros Hok rt ps p n Hn Hk.
  - exists n. rewrite (node_put_same _ _ _ Hn). repeat split; auto.
  - cbn [start_readings_ok] in Hok.
    apply andb_prop in Hok. destruct Hok as [Hok Hrest].
    apply andb_prop in Hok. destruct Hok as [Ht1 Hinner].
    destruct (push_child name rt ps p n Hn Hk)
      as [rt1 [n1 [c0 [Hpush [Hn1 [Hc0 [Hidle [Hk1 [Hput [[Hst1 [Htot1 Hcnt1]] _]]]]]]]]]].
    assert (Hq1 : node_at (p ++ [name]) rt1 = Some c0)
      by now rewrite node_at_snoc, Hn1.
    pose proof (on_top_step (_start t1) rt1 (ps ++ [p]) (p ++ [name]) c0
                  (started t1 c0) (Ok tt) Hq1
                  (start_idle t1 c0 (idle_not_running _ Hidle))) as Hstart.
    assert (Hq2 : node_at (p ++ [name]) (node_put (p ++ [name]) (started t1 c0) rt1)
                  = Some (started t1 c0)) by (eapply node_at_put; eauto).
    destruct (IHi Hinner _ (ps ++ [p]) (p ++ [name]) (started t1 c0) Hq2
                (idle_kids_idle _ Hidle))
      as [c' [Hrun_i [Hk' [Hst' _]]]].
    assert (Hq3 : node_at (p ++ [name])
                    (node_put (p ++ [name]) c'
                       (node_put (p ++ [name]) (started t1 c0) rt1)) = Some c')
      by (eapply node_at_put; eauto).
    assert (Hrun' : _is_running c' = true).
    { unfold _is_running. rewrite Hst'. exact Ht1. }
    pose proof (on_top_step (_end t2) _ (ps ++ [p]) (p ++ [name]) c' (ended t2 c')
                  (Ok tt) Hq3 (end_running t2 c' Hrun')) as Hend.
    set (n4 := with_children (Dict.set name (ended t2 c') (children n1)) n1).
    assert (Hrt4 : node_put (p ++ [name]) (ended t2 c')
                     (node_put (p ++ [name]) c'
                        (node_put (p ++ [name]) (started t1 c0) rt1))
                   = node_put p n4 rt).
    { rewrite (node_put_put (p ++ [name]) c' (ended t2 c') _ _ Hq2).
      rewrite (node_put_put (p ++ [name]) (started t1 c0) (ended t2 c') rt1 _ Hq1).
      rewrite (node_put_snoc p name (ended t2 c') rt1 n1 c0 Hn1 Hc0).
      apply Hput. }
    rewrite Hrt4 in Hend.
    assert (Hn4 : node_at p (node_put p n4 rt) = Some n4)
      by (eapply node_at_put; eauto).
    assert (Hk4 : kids_idle n4 = true).
    { unfold kids_idle, n4. cbn [children with_children].
      apply forallb_set; [exact Hk1|].
      rewrite idle_tree_eq. cbn. exact Hk'. }
    destruct (IHr Hrest (node_put p n4 rt) ps p n4 Hn4 Hk4)
      as [n' [Hrun_r [Hkn' [Hstn' [Htotn' Hcntn']]]]].
    rewrite (node_put_put p n4 n' rt n Hn) in Hrun_r.
    exists n'. split; [|split; [exact Hkn'|]].
    + change (ops_of (Region name t1 t2 inner rest))
        with (Push name :: Start t1
                :: (ops_of inner ++ End t2 :: Pop :: ops_of rest)).
      cbn [run_ops].
      eapply bind_ok; [unfold step; eapply bind_ok; [exact Hpush|reflexivity]|].
      eapply bind_ok; [exact Hstart|].
      rewrite run_ops_app, Hrun_i. cbn [run_ops].
      eapply bind_ok; [exact Hend|].
      eapply bind_ok; [apply pop_snoc|].
      exact Hrun_r.
    + rewrite Hstn', Htotn', Hcntn'. unfold n4. cbn. auto.
Qed.

(** X16: entering region [name] under a node whose descendants are all
    idle, with a body of properly nested regions, returns normally and adds
    exactly one to the [count] of the child [name] and [t_end - t_start] to
    its [total], counting from zero when the child is new; the stack is as
    before entry, the child is not running, the other children of the node
    are the same entries, and the node's own fields are untouched. *)
Theorem region_accounting (name : string) (t_start t_end : Q)
    (inner : regions) (rt : TimerNode) (ps : list ref) (p : ref) (n : TimerNode) :
  node_at p rt = Some n ->
  kids_idle n = true ->
  Qeq_bool t_start (-1) = false ->
  start_readings_ok inner = true ->
  exists n' c,
    hierarchical_timer name t_start t_end (fun _ => run_ops (ops_of inner))
      {| root := rt; stack := ps ++ [p] |}
    = (Ok tt, {| root := node_put p n' rt; stack := ps ++ [p] |})
    /\ Dict.get name (children n') = Some c
    /\ count c
       = (count (match Dict.get name (children n) with
                 | Some c0 => c0
                 | None => TimerNode_init
                 end) + 1)%Z
    /\ total c
       = total (match Dict.get name (children n) with
                | Some c0 => c0
                | None => TimerNode_init
                end) + (t_end - t_start)
    /\ _is_running c = false
    /\ (forall k, k <> name -> Dict.get k (children n') = Dict.get k (children n))
    /\ _start_time n' = _start_time n
    /\ total n' = total n
    /\ count n' = count n.
Proof.
  intros Hn Hk Ht1 Hinner.
  destruct (push_child name rt ps p n Hn Hk)
    as [rt1 [n1 [c0 [Hpush [Hn1 [Hc0 [Hidle [Hk1 [Hput [[Hst1 [Htot1 Hcnt1]]
                                                          [Hc0eq Hother]]]]]]]]]]].
  assert (Hq1 : node_at (p ++ [name]) rt1 = Some c0)
    by now rewrite node_at_snoc, Hn1.
  pose proof (with_node_at (p ++ [name]) (_start t_start)
                {| root := rt1; stack := (ps ++ [p]) ++ [p ++ [name]] |}
                c0 (started t_start c0) (Ok tt)
                Hq1 (start_idle t_start c0 (idle_not_running _ Hidle))) as Hstart.
  cbn [root stack] in Hstart.
  assert (Hq2 : node_at (p ++ [name])
                  (node_put (p ++ [name]) (started t_start c0) rt1)
                = Some (started t_start c0)) by (eapply node_at_put; eauto).
  destruct (regions_keep_fields inner Hinner _ (ps ++ [p]) (p ++ [name])
              (started t_start c0) Hq2 (idle_kids_idle _ Hidle))
    as [c' [Hrun_i [Hk' [Hst' [Htot' Hcnt']]]]].
  assert (Hq3 : node_at (p ++ [name])
                  (root {| root := node_put (p ++ [name]) c'
                                     (node_put (p ++ [name]) (started t_start c0) rt1);
                           stack := (ps ++ [p]) ++ [p ++ [name]] |}) = Some c')
    by (cbn [root]; eapply node_at_put; eauto).
  assert (Hrun' : _is_running c' = true).
  { unfold _is_running. rewrite Hst'. cbn. now rewrite Ht1. }
  pose proof (with_node_at (p ++ [name]) (_end t_end) _ c' (ended t_end c') (Ok tt)
                Hq3 (end_running t_end c' Hrun')) as Hend.
  cbn [root stack] in Hend.
  set (n4 := with_children (Dict.set name (ended t_end c') (children n1)) n1).
  assert (Hrt4 : node_put (p ++ [name]) (ended t_end c')
                   (node_put (p ++ [name]) c'
                      (node_put (p ++ [name]) (started t_start c0) rt1))
                 = node_put p n4 rt).
  { rewrite (node_put_put (p ++ [name]) c' (ended t_end c') _ _ Hq2).
    rewrite (node_put_put (p ++ [name]) (started t_start c0) (ended t_end c') rt1 _ Hq1).
    rewrite (node_put_snoc p name (ended t_end c') rt1 n1 c0 Hn1 Hc0).
    apply Hput. }
  exists n4, (ended t_end c'). split; [|split; [|split; [|split; [|split; [|split]]]]].
  - unfold hierarchical_timer.
    eapply bind_ok; [exact Hpush|]. cbv beta.
    eapply bind_ok; [exact Hstart|]. cbv beta.
    eapply bind_ok; [exact Hrun_i|]. cbv beta.
    eapply bind_ok; [exact Hend|]. cbv beta.
    eapply bind_ok; [apply pop_snoc|]. cbv beta.
    unfold ret. now rewrite Hrt4.
  - unfold n4. cbn [children with_children]. apply get_set_same.
  - cbn [count ended]. rewrite Hcnt'. cbn [count started]. now rewrite Hc0eq.
  - cbn [total ended]. rewrite Htot', Hst'. cbn [total _start_time started].
    now rewrite Hc0eq.
  - reflexivity.
  - intros k Hne. unfold n4. cbn [children with_children].
    rewrite get_set_other by exact Hne. now apply Hother.
  - unfold n4. cbn. auto.
Qed.

Lemma region_accounting_witness :
  exists n' c,
    hierarchical_timer "update" 2 5
      (fun _ => run_ops (ops_of (Region "inner" 3 4 Done Done)))
      {| root := root (TimerStack_init 1); stack := [] ++ [[]] |}
    = (Ok tt, {| root := node_put [] n' (root (TimerStack_init 1));
                 stack := [] ++ [[]] |})
    /\ Dict.get "update" (children n') = Some c
    /\ count c
       = (count (match Dict.get "update" (children (root (TimerStack_init 1))) with
                 | Some c0 => c0
                 | None => TimerNode_init
                 end) + 1)%Z
    /\ total c
       = total (match Dict.get "update" (children (root (TimerStack_init 1))) with
                | Some c0 => c0
                | None => TimerNode_init
                end) + (5 - 2)
    /\ _is_running c = false
    /\ (forall k, k <> "update" ->
                  Dict.get k (children n')
                  = Dict.get k (children (root (TimerStack_init 1))))
    /\ _start_time n' = _start_time (root (TimerStack_init 1))
    /\ total n' = total (root (TimerStack_init 1))
    /\ count n' = count (root (TimerStack_init 1)).
Proof.
  apply (region_accounting "update" 2 5 (Region "inner" 3 4 Done Done)
           (root (TimerStack_init 1)) [] [] (root (TimerStack_init 1)));
    reflexivity.
Defined.

(** ** The shape of the stack *)

Lemma descent_snoc (name : string) (cur : ref) (l : list ref) :
  forall prev,
    descent prev l ->
    top (prev :: l) = Some cur ->
    descent prev (l ++ [cur ++ [name]]).
Proof.
  induction l as [|r l IH]; intros prev Hd Ht.
  - cbn in Ht. inversion Ht. subst cur. cbn. split; [eauto|exact I].
  - destruct Hd as [Hr Hd]. cbn [app descent]. split; [exact Hr|].
    apply IH; [exact Hd|]. exact Ht.
Qed.

Lemma descent_removelast (l : list ref) :
  forall prev, descent prev l -> descent prev (removelast l).
Proof.
  induction l as [|r l IH]; intros prev Hd; [exact I|].
  destruct Hd as [Hr Hd]. destruct l as [|r' l]; [exact I|].
  cbn [removelast]. split; [exact Hr|]. now apply IH.
Qed.

Lemma path_ok_snoc (name : string) (cur : ref) (st : list ref) :
  path_ok st -> top st = Some cur -> path_ok (st ++ [cur ++ [name]]).
Proof.
  destruct st as [|r l]; [discriminate|].
  intros [Hr Hd] Ht. split; [exact Hr|]. now apply descent_snoc.
Qed.

Lemma path_ok_removelast (st : list ref) : path_ok st -> path_ok (removelast st).
Proof.
  destruct st as [|r l]; [auto|]. intros [Hr Hd].
  destruct l as [|r' l]; [exact I|].
  split; [exact Hr|]. now apply (descent_removelast (r' :: l)).
Qed.

Lemma stack_on_top {A} (m : Py TimerNode A) (ts : TimerStack) :
  stack (snd (on_top m ts)) = stack ts.
Proof.
  unfold on_top, bind, get, with_node. cbn.
  destruct (top (stack ts)); [|reflexivity].
  destruct (node_at r (root ts)); [|reflexivity].
  now destruct (m t).
Qed.

Lemma path_ok_push (name : string) (ts : TimerStack) :
  path_ok (stack ts) -> path_ok (stack (snd (push name ts))).
Proof.
  intros Hp. unfold push, bind, get. cbn.
  destruct (top (stack ts)) as [cur|] eqn:Ht; [|exact Hp].
  destruct (node_at cur (root ts)) as [current|]; [|exact Hp].
  destruct (Dict.get name (children current)); cbn; now apply path_ok_snoc.
Qed.

Lemma path_ok_step (o : timer_op) (ts : TimerStack) :
  path_ok (stack ts) -> path_ok (stack (snd (step o ts))).
Proof.
  intros Hp. destruct o as [name|now|now|]; cbn [step].
  - pose proof (path_ok_push name ts Hp) as H. unfold bind.
    destruct (push name ts) as [[r|e] ts']; exact H.
  - now rewrite stack_on_top.
  - now rewrite stack_on_top.
  - unfold pop, bind, get, put. cbn.
    destruct (stack ts) as [|r l] eqn:E.
    + unfold raise. cbn [snd]. now rewrite E.
    + cbn [snd stack]. now apply path_ok_removelast.
Qed.

Lemma path_ok_run (ops : list timer_op) :
  forall ts, path_ok (stack ts) -> path_ok (stack (snd (run_ops ops ts))).
Proof.
  induction ops as [|o ops IH]; intros ts Hp; [exact Hp|].
  cbn [run_ops]. unfold bind.
  pose proof (path_ok_step o ts Hp) as H.
  destruct (step o ts) as [[[]|e] ts']; cbn [snd] in *; auto.
Qed.

(** X17: whatever calls ([push], [pop], [_start] and [_end] on the top
    node) are made on a fresh stack, in whatever order and up to the first
    one that raises, the stack is either empty or starts at the root and
    goes down the tree one child at a time, and every element of it is a
    node of the tree. *)
Theorem active_path_descends (ops : list timer_op) (now0 : Q) :
  path_ok (stack (snd (run_ops ops (TimerStack_init now0))))
  /\ wf (snd (run_ops ops (TimerStack_init now0))) = true.
Proof.
  split.
  - apply path_ok_run. split; [reflexivity|exact I].
  - apply no_dangling_ref. apply wf_init.
Qed.

(** ** A whole policy update *)

(** X18: with an experience-collection time [d] on record, a policy update
    started at a non-zero reading [t0] with [n] experiences and mean return
    [r], and ended at [t1], returns normally and appends the row
    [brain, t1 - t0, time since the start of training, d, n, r], with the
    four floats formatted to three decimals and [n] left as an int; the
    experience-collection time is reset. *)
Theorem policy_update_cycle (n : Z) (r t0 t1 t_now d : Q) (m : TrainerMetrics) :
  delta_last_experience_collection m = Some d ->
  ~ t0 == 0 ->
  let out := (start_policy_update_timer n r t0 ;;; end_policy_update t1 t_now) m in
  fst out = Ok tt
  /\ rows (snd out)
     = rows m ++ [[PyStr (brain_name m);
                   PyStr (format_3f (t1 - t0));
                   PyStr (format_3f (t_now - time_training_start m));
                   PyStr (format_3f d);
                   PyInt n;
                   PyStr (format_3f r)]]
  /\ delta_last_experience_collection (snd out) = None
  /\ delta_policy_update (snd out) = PyFloat (t1 - t0).
Proof.
  intros Hd Hnz. cbv zeta.
  unfold bind, start_policy_update_timer, modify.
  rewrite end_policy_update_eq. cbv zeta.
  unfold can_log, policy_update_row, policy_update_duration, truthy.
  cbn [delta_last_experience_collection last_mean_return time_policy_update_start
         set_policy_update_inputs brain_name time_training_start last_buffer_length
         rows].
  rewrite Hd.
  destruct (Qeq_bool t0 0) eqn:E; [apply Qeq_bool_eq in E; contradiction|].
  cbn [negb fst snd map row_cell of_float of_int app rows set_rows
         delta_last_experience_collection set_delta_last_experience_collection
         delta_policy_update set_delta_policy_update].
  repeat split.
Qed.

Lemma policy_update_cycle_witness :
  let m := snd (add_delta_step (1 # 2) (TrainerMetrics_init "m.csv" "BrainA" 1)) in
  let out := (start_policy_update_timer 200 (314159 # 100000) 2
                ;;; end_policy_update 3 4) m in
  fst out = Ok tt
  /\ rows (snd out)
     = rows m ++ [[PyStr (brain_name m);
                   PyStr (format_3f (3 - 2));
                   PyStr (format_3f (4 - time_training_start m));
                   PyStr (format_3f (1 # 2));
                   PyInt 200;
                   PyStr (format_3f (314159 # 100000))]]
  /\ delta_last_experience_collection (snd out) = None
  /\ delta_policy_update (snd out) = PyFloat (3 - 2).
Proof.
  apply (policy_update_cycle 200 (314159 # 100000) 2 3 4 (1 # 2)
           (snd (add_delta_step (1 # 2) (TrainerMetrics_init "m.csv" "BrainA" 1)))).
  - reflexivity.
  - intros H. vm_compute in H. discriminate.
Defined.
